(** * Keycloak realm provider: merge engine, SMTP codec and resource lifecycle

    A shallow embedding of [provider/pkg/provider/realm.go] (with the
    context helpers of [config.go]).  Go pointers to immutable values are
    options, Go's [int] is a [Z] kept inside the machine range by an explicit
    wrap-around, [map[string]string] is a [gmap string string], and every
    call of the admin client is an event of a small free monad, so that the
    calls a lifecycle operation performs can be read off its run. *)

From Stdlib Require Import ZArith Lia Ascii String.
From Stdlib Require Import Decimal DecimalString DecimalPos DecimalN DecimalZ.
From stdpp Require Import gmap strings list fin_maps.

Local Open Scope Z_scope.
Local Open Scope string_scope.
Local Open Scope list_scope.

(** ** Machine integers *)

(** Go's [int] is 32 or 64 bits wide depending on the target. *)
Inductive IntSize : Type := Int32 | Int64.

Definition int_bits (a : IntSize) : Z :=
  match a with Int32 => 32 | Int64 => 64 end.

(** Two's complement wrap-around of a signed [int]: Go integer arithmetic
    never traps on overflow. *)
Definition int_wrap (a : IntSize) (x : Z) : Z :=
  (x + 2 ^ (int_bits a - 1)) mod 2 ^ int_bits a - 2 ^ (int_bits a - 1).

Definition in_int_range (a : IntSize) (x : Z) : Prop :=
  - 2 ^ (int_bits a - 1) <= x < 2 ^ (int_bits a - 1).

(** ** Errors *)

(** An [error] is either a failure reported by the admin client or such a
    failure wrapped by [fmt.Errorf(prefix + "%w", cause)]. *)
Inductive error : Type :=
| APIError (msg : string)
| Errorf (prefix : string) (cause : error).

(** [err.Error()] *)
Fixpoint Error (e : error) : string :=
  match e with
  | APIError msg => msg
  | Errorf prefix cause => prefix +:+ Error cause
  end.

(** A Go pair [(value, error)] in which exactly one side is meaningful. *)
Definition result (A : Type) : Type := (A + error)%type.
Definition Ok {A : Type} (a : A) : result A := inl a.
Definition Err {A : Type} (e : error) : result A := inr e.

(** ** Data model *)

Module SmtpServerConfig.
Record t : Type := mk {
  Host : option string;
  Port : option Z;
  From : option string;
  FromName : option string;
  StartTls : option bool;
  Auth : option bool;
  Username : option string;
  Password : option string
}.

(** [&SmtpServerConfig{}] *)
Definition zero : t := mk None None None None None None None None.

(** Field assignments [smtp.F = &v]. *)
Definition set_Host (v : string) (c : t) : t :=
  mk (Some v) (Port c) (From c) (FromName c) (StartTls c) (Auth c) (Username c) (Password c).
Definition set_Port (v : Z) (c : t) : t :=
  mk (Host c) (Some v) (From c) (FromName c) (StartTls c) (Auth c) (Username c) (Password c).
Definition set_From (v : string) (c : t) : t :=
  mk (Host c) (Port c) (Some v) (FromName c) (StartTls c) (Auth c) (Username c) (Password c).
Definition set_FromName (v : string) (c : t) : t :=
  mk (Host c) (Port c) (From c) (Some v) (StartTls c) (Auth c) (Username c) (Password c).
Definition set_StartTls (v : bool) (c : t) : t :=
  mk (Host c) (Port c) (From c) (FromName c) (Some v) (Auth c) (Username c) (Password c).
Definition set_Auth (v : bool) (c : t) : t :=
  mk (Host c) (Port c) (From c) (FromName c) (StartTls c) (Some v) (Username c) (Password c).
Definition set_Username (v : string) (c : t) : t :=
  mk (Host c) (Port c) (From c) (FromName c) (StartTls c) (Auth c) (Some v) (Password c).
Definition set_Password (v : string) (c : t) : t :=
  mk (Host c) (Port c) (From c) (FromName c) (StartTls c) (Auth c) (Username c) (Some v).
End SmtpServerConfig.

Module RealmArgs.
Record t : Type := mk {
  Name : string;
  Enabled : option bool;
  DisplayName : option string;
  DisplayNameHtml : option string;
  LoginTheme : option string;
  AccountTheme : option string;
  AdminTheme : option string;
  EmailTheme : option string;
  SmtpServer : option SmtpServerConfig.t
}.
End RealmArgs.

Module RealmState.
Record t : Type := mk {
  ID : string;
  Name : string;
  Enabled : option bool;
  DisplayName : option string;
  DisplayNameHtml : option string;
  LoginTheme : option string;
  AccountTheme : option string;
  AdminTheme : option string;
  EmailTheme : option string;
  SmtpServer : option SmtpServerConfig.t
}.

(** Field assignments [state.F = p]. *)
Definition set_Enabled (p : option bool) (s : t) : t :=
  mk (ID s) (Name s) p (DisplayName s) (DisplayNameHtml s) (LoginTheme s)
     (AccountTheme s) (AdminTheme s) (EmailTheme s) (SmtpServer s).
Definition set_DisplayName (p : option string) (s : t) : t :=
  mk (ID s) (Name s) (Enabled s) p (DisplayNameHtml s) (LoginTheme s)
     (AccountTheme s) (AdminTheme s) (EmailTheme s) (SmtpServer s).
Definition set_DisplayNameHtml (p : option string) (s : t) : t :=
  mk (ID s) (Name s) (Enabled s) (DisplayName s) p (LoginTheme s)
     (AccountTheme s) (AdminTheme s) (EmailTheme s) (SmtpServer s).
Definition set_LoginTheme (p : option string) (s : t) : t :=
  mk (ID s) (Name s) (Enabled s) (DisplayName s) (DisplayNameHtml s) p
     (AccountTheme s) (AdminTheme s) (EmailTheme s) (SmtpServer s).
Definition set_AccountTheme (p : option string) (s : t) : t :=
  mk (ID s) (Name s) (Enabled s) (DisplayName s) (DisplayNameHtml s) (LoginTheme s)
     p (AdminTheme s) (EmailTheme s) (SmtpServer s).
Definition set_AdminTheme (p : option string) (s : t) : t :=
  mk (ID s) (Name s) (Enabled s) (DisplayName s) (DisplayNameHtml s) (LoginTheme s)
     (AccountTheme s) p (EmailTheme s) (SmtpServer s).
Definition set_EmailTheme (p : option string) (s : t) : t :=
  mk (ID s) (Name s) (Enabled s) (DisplayName s) (DisplayNameHtml s) (LoginTheme s)
     (AccountTheme s) (AdminTheme s) p (SmtpServer s).
Definition set_SmtpServer (p : option SmtpServerConfig.t) (s : t) : t :=
  mk (ID s) (Name s) (Enabled s) (DisplayName s) (DisplayNameHtml s) (LoginTheme s)
     (AccountTheme s) (AdminTheme s) (EmailTheme s) p.
End RealmState.

(** ** Field codec *)

(** The characters ['0'] and ['9']. *)
Definition char_0 : Z := 48.
Definition char_9 : Z := 57.

Definition char_code (c : ascii) : Z := Z.of_N (N_of_ascii c).

(** The loop of [parseInt].  The source ranges over the runes of [s]; a
    string is modelled by its bytes.  Every byte of a multi-byte rune is at
    least 128, and so is the rune, so the byte loop rejects exactly the
    strings the rune loop rejects and reads the same digits otherwise. *)
Fixpoint parseInt_loop (a : IntSize) (s : string) (result : Z) : option Z :=
  match s with
  | EmptyString => Some result
  | String char rest =>
      if ((char_code char <? char_0) || (char_code char >? char_9))%Z then None
      else parseInt_loop a rest
             (int_wrap a (int_wrap a (result * 10) + (char_code char - char_0)))
  end.

Definition parseInt (a : IntSize) (s : string) : option Z :=
  if decide (s = "") then None else parseInt_loop a s 0.

(** [fmt.Sprintf("%d", n)]: an optional minus sign and the decimal digits,
    ["0"] for zero. *)
Definition Sprintf_d (n : Z) : string := NilZero.string_of_int (Z.to_int n).

(** A nil [*SmtpServerConfig] gives the nil map, which [len] and lookups do
    not tell apart from the empty one. *)
Definition convertSmtpConfig (smtp : option SmtpServerConfig.t) : gmap string string :=
  match smtp with
  | None => ∅
  | Some smtp =>
      let result : gmap string string := ∅ in
      let result :=
        match SmtpServerConfig.Host smtp with
        | Some host => <["host" := host]> result
        | None => result
        end in
      let result :=
        match SmtpServerConfig.Port smtp with
        | Some port => <["port" := Sprintf_d port]> result
        | None => result
        end in
      let result :=
        match SmtpServerConfig.From smtp with
        | Some from => <["from" := from]> result
        | None => result
        end in
      let result :=
        match SmtpServerConfig.FromName smtp with
        | Some fromName => <["fromDisplayName" := fromName]> result
        | None => result
        end in
      let result :=
        match SmtpServerConfig.StartTls smtp with
        | Some true => <["starttls" := "true"]> result
        | Some false => <["starttls" := "false"]> result
        | None => result
        end in
      match SmtpServerConfig.Auth smtp with
      | Some true =>
          let result := <["auth" := "true"]> result in
          let result :=
            match SmtpServerConfig.Username smtp with
            | Some user => <["user" := user]> result
            | None => result
            end in
          match SmtpServerConfig.Password smtp with
          | Some password => <["password" := password]> result
          | None => result
          end
      | _ => <["auth" := "false"]> result
      end
  end.

Definition convertFromKeycloakSmtp (a : IntSize) (keycloakSmtp : gmap string string)
  : option SmtpServerConfig.t :=
  if decide (size keycloakSmtp = 0%nat) then None
  else
    let smtp := SmtpServerConfig.zero in
    let smtp :=
      match keycloakSmtp !! "host" with
      | Some host => SmtpServerConfig.set_Host host smtp
      | None => smtp
      end in
    let smtp :=
      match keycloakSmtp !! "port" with
      | Some port =>
          match parseInt a port with
          | Some portInt => SmtpServerConfig.set_Port portInt smtp
          | None => smtp
          end
      | None => smtp
      end in
    let smtp :=
      match keycloakSmtp !! "from" with
      | Some from => SmtpServerConfig.set_From from smtp
      | None => smtp
      end in
    let smtp :=
      match keycloakSmtp !! "fromDisplayName" with
      | Some fromName => SmtpServerConfig.set_FromName fromName smtp
      | None => smtp
      end in
    let smtp :=
      match keycloakSmtp !! "starttls" with
      | Some starttls =>
          let starttlsBool := bool_decide (starttls = "true") in
          SmtpServerConfig.set_StartTls starttlsBool smtp
      | None => smtp
      end in
    let smtp :=
      match keycloakSmtp !! "auth" with
      | Some auth =>
          let authBool := bool_decide (auth = "true") in
          let smtp := SmtpServerConfig.set_Auth authBool smtp in
          if authBool then
            let smtp :=
              match keycloakSmtp !! "user" with
              | Some user => SmtpServerConfig.set_Username user smtp
              | None => smtp
              end in
            match keycloakSmtp !! "password" with
            | Some password => SmtpServerConfig.set_Password password smtp
            | None => smtp
            end
          else smtp
      | None => smtp
      end in
    Some smtp.

(** ** The admin client (gocloak) *)

(** [gocloak.RealmRepresentation] is declared by the client library.  The
    fields this provider names are record fields; every other field of the
    struct is kept, under its JSON name, in [Unmanaged], with values of an
    arbitrary type [V]. *)
Module RealmRepresentation.
Record t (V : Type) : Type := mk {
  Realm : option string;
  Enabled : option bool;
  DisplayName : option string;
  DisplayNameHTML : option string;
  LoginTheme : option string;
  AccountTheme : option string;
  AdminTheme : option string;
  EmailTheme : option string;
  SMTPServer : option (gmap string string);
  Unmanaged : gmap string V
}.
Arguments mk {V}.
Arguments Realm {V}.
Arguments Enabled {V}.
Arguments DisplayName {V}.
Arguments DisplayNameHTML {V}.
Arguments LoginTheme {V}.
Arguments AccountTheme {V}.
Arguments AdminTheme {V}.
Arguments EmailTheme {V}.
Arguments SMTPServer {V}.
Arguments Unmanaged {V}.

(** Field assignments [r.F = p]. *)
Definition set_Realm {V} (p : option string) (r : t V) : t V :=
  mk p (Enabled r) (DisplayName r) (DisplayNameHTML r) (LoginTheme r) (AccountTheme r)
     (AdminTheme r) (EmailTheme r) (SMTPServer r) (Unmanaged r).
Definition set_Enabled {V} (p : option bool) (r : t V) : t V :=
  mk (Realm r) p (DisplayName r) (DisplayNameHTML r) (LoginTheme r) (AccountTheme r)
     (AdminTheme r) (EmailTheme r) (SMTPServer r) (Unmanaged r).
Definition set_DisplayName {V} (p : option string) (r : t V) : t V :=
  mk (Realm r) (Enabled r) p (DisplayNameHTML r) (LoginTheme r) (AccountTheme r)
     (AdminTheme r) (EmailTheme r) (SMTPServer r) (Unmanaged r).
Definition set_DisplayNameHTML {V} (p : option string) (r : t V) : t V :=
  mk (Realm r) (Enabled r) (DisplayName r) p (LoginTheme r) (AccountTheme r)
     (AdminTheme r) (EmailTheme r) (SMTPServer r) (Unmanaged r).
Definition set_LoginTheme {V} (p : option string) (r : t V) : t V :=
  mk (Realm r) (Enabled r) (DisplayName r) (DisplayNameHTML r) p (AccountTheme r)
     (AdminTheme r) (EmailTheme r) (SMTPServer r) (Unmanaged r).
Definition set_AccountTheme {V} (p : option string) (r : t V) : t V :=
  mk (Realm r) (Enabled r) (DisplayName r) (DisplayNameHTML r) (LoginTheme r) p
     (AdminTheme r) (EmailTheme r) (SMTPServer r) (Unmanaged r).
Definition set_AdminTheme {V} (p : option string) (r : t V) : t V :=
  mk (Realm r) (Enabled r) (DisplayName r) (DisplayNameHTML r) (LoginTheme r)
     (AccountTheme r) p (EmailTheme r) (SMTPServer r) (Unmanaged r).
Definition set_EmailTheme {V} (p : option string) (r : t V) : t V :=
  mk (Realm r) (Enabled r) (DisplayName r) (DisplayNameHTML r) (LoginTheme r)
     (AccountTheme r) (AdminTheme r) p (SMTPServer r) (Unmanaged r).
Definition set_SMTPServer {V} (p : option (gmap string string)) (r : t V) : t V :=
  mk (Realm r) (Enabled r) (DisplayName r) (DisplayNameHTML r) (LoginTheme r)
     (AccountTheme r) (AdminTheme r) (EmailTheme r) p (Unmanaged r).

(** [gocloak.RealmRepresentation{}] *)
Definition zero {V} : t V := mk None None None None None None None None None ∅.
End RealmRepresentation.

(** The value of one attribute of a realm representation, by JSON name. *)
Inductive attr (V : Type) : Type :=
| AString (s : string)
| ABool (b : bool)
| AStringMap (m : gmap string string)
| AOther (v : V).
Arguments AString {V}.
Arguments ABool {V}.
Arguments AStringMap {V}.
Arguments AOther {V}.

Definition attribute {V} (x : string) (r : RealmRepresentation.t V) : option (attr V) :=
  if decide (x = "realm") then AString <$> RealmRepresentation.Realm r
  else if decide (x = "enabled") then ABool <$> RealmRepresentation.Enabled r
  else if decide (x = "displayName") then AString <$> RealmRepresentation.DisplayName r
  else if decide (x = "displayNameHtml") then AString <$> RealmRepresentation.DisplayNameHTML r
  else if decide (x = "loginTheme") then AString <$> RealmRepresentation.LoginTheme r
  else if decide (x = "accountTheme") then AString <$> RealmRepresentation.AccountTheme r
  else if decide (x = "adminTheme") then AString <$> RealmRepresentation.AdminTheme r
  else if decide (x = "emailTheme") then AString <$> RealmRepresentation.EmailTheme r
  else if decide (x = "smtpServer") then AStringMap <$> RealmRepresentation.SMTPServer r
  else AOther <$> RealmRepresentation.Unmanaged r !! x.

(** The list the source declares (and never reads). *)
Definition managedFields : list string :=
  ["realm"; "enabled"; "displayName"; "displayNameHtml";
   "loginTheme"; "accountTheme"; "adminTheme"; "emailTheme"; "smtpServer"].

(** The attributes [updateManagedFields] may write. *)
Definition written_fields : list string :=
  ["enabled"; "displayName"; "displayNameHtml"; "loginTheme"; "accountTheme";
   "adminTheme"; "emailTheme"; "smtpServer"].

(** [gocloak.JWT], of which only the access token is used. *)
Record JWT : Type := { AccessToken : string }.

(** The client handle [*gocloak.GoCloak]. *)
Record GoCloak : Type := { basePath : string }.

(** The calls of the admin client the provider makes.  A call that returns
    [(value, error)] replies with one of the two, as the library does. *)
Inductive call (V : Type) : Type :=
| LoginAdmin (username password realm : string)
| GetRealm (token realmName : string)
| CreateRealm (token : string) (realm : RealmRepresentation.t V)
| UpdateRealm (token : string) (realm : RealmRepresentation.t V)
| DeleteRealm (token realmName : string).
Arguments LoginAdmin {V}.
Arguments GetRealm {V}.
Arguments CreateRealm {V}.
Arguments UpdateRealm {V}.
Arguments DeleteRealm {V}.

Definition reply {V} (c : call V) : Type :=
  match c with
  | LoginAdmin _ _ _ => result JWT
  | GetRealm _ _ => result (RealmRepresentation.t V)
  | CreateRealm _ _ => result string
  | UpdateRealm _ _ => option error
  | DeleteRealm _ _ => option error
  end.

(** A call that changes the remote system. *)
Definition is_write {V} (c : call V) : bool :=
  match c with
  | LoginAdmin _ _ _ | GetRealm _ _ => false
  | CreateRealm _ _ | UpdateRealm _ _ | DeleteRealm _ _ => true
  end.

(** ** Computations that call the admin client *)

(** A computation returns, panics, or performs a call and continues with
    its reply. *)
Inductive M (V A : Type) : Type :=
| Ret (a : A)
| Panic (msg : string)
| Do (c : call V) (k : reply c -> M V A).
Arguments Ret {V A}.
Arguments Panic {V A}.
Arguments Do {V A}.

Fixpoint bind {V A B} (m : M V A) (f : A -> M V B) : M V B :=
  match m with
  | Ret a => f a
  | Panic msg => Panic msg
  | Do c k => Do c (fun r => bind (k r) f)
  end.

#[global] Instance M_ret {V} : MRet (M V) := fun A a => Ret a.
#[global] Instance M_bind {V} : MBind (M V) := fun A B f m => bind m f.

Definition perform {V} (c : call V) : M V (reply c) := Do c Ret.

(** [*p], which panics on nil. *)
Definition deref {V A} (p : option A) : M V A :=
  match p with
  | Some a => Ret a
  | None => Panic "invalid memory address or nil pointer dereference"
  end.

Inductive outcome (A : Type) : Type :=
| Returned (a : A)
| Panicked (msg : string).
Arguments Returned {A}.
Arguments Panicked {A}.

(** Running a computation against a remote system with state [S]: the
    outcome, the calls made in order, and the final remote state. *)
Fixpoint run {V S A} (remote : forall c : call V, S -> reply c * S) (m : M V A) (s : S)
  : outcome A * list (call V) * S :=
  match m with
  | Ret a => (Returned a, [], s)
  | Panic msg => (Panicked msg, [], s)
  | Do c k =>
      let '(r, s1) := remote c s in
      let '(o, calls, s2) := run remote (k r) s1 in
      (o, c :: calls, s2)
  end.

(** ** Provider configuration and request context ([config.go]) *)

Record ProviderConfig : Type := {
  URL : string;
  Username : string;
  Password : string;
  Realm : option string;
  BasePath : option string;
  Insecure : option bool
}.

(** The two values the provider keeps in the request context, under
    [configKey{}] and [clientKey{}]. *)
Record Ctx : Type := {
  ctx_config : option ProviderConfig;
  ctx_client : option GoCloak
}.

Definition getKeycloakClient {V} (ctx : Ctx) : M V GoCloak :=
  match ctx_client ctx with
  | Some client => Ret client
  | None => Panic "Keycloak client not found in context"
  end.

Definition getProviderConfig {V} (ctx : Ctx) : M V ProviderConfig :=
  match ctx_config ctx with
  | Some config => Ret config
  | None => Panic "Provider config not found in context"
  end.

(** ** Requests and responses of the resource lifecycle ([infer]) *)

Record CreateRequest : Type := {
  create_Inputs : RealmArgs.t;
  create_DryRun : bool
}.

Record CreateResponse : Type := {
  create_ID : string;
  create_Output : RealmState.t
}.

Record UpdateRequest : Type := {
  update_Inputs : RealmArgs.t;
  update_DryRun : bool
}.

Record UpdateResponse : Type := {
  update_Output : RealmState.t
}.

Record DeleteRequest : Type := {
  delete_State : RealmState.t
}.

Inductive DeleteResponse : Type := MkDeleteResponse.

(** ** The realm resource ([realm.go]) *)

Section Realm.
Context {V : Type}.
Variable a : IntSize.

Definition realmExists (ctx : Ctx) (client : GoCloak) (realmName : string)
  : M V (bool * option error) :=
  config ← getProviderConfig ctx;
  realm ← deref (Realm config);
  r ← perform (LoginAdmin (Username config) (Password config) realm);
  match r with
  | inr err => mret (false, Some (Errorf "failed to authenticate: " err))
  | inl token =>
      r ← perform (GetRealm (AccessToken token) realmName);
      match r with
      | inr err =>
          if bool_decide (Error err = "404") || bool_decide (Error err = "realm not found")
          then mret (false, None)
          else mret (false, Some err)
      | inl _ => mret (true, None)
      end
  end.

(** The payload [updateManagedFields] builds from the fetched realm:
    the copy [updateRealm := *currentRealm] and the guarded assignments
    that follow it. *)
Definition updateRealm (args : RealmArgs.t) (currentRealm : RealmRepresentation.t V)
  : RealmRepresentation.t V :=
  let updateRealm := currentRealm in
  let updateRealm :=
    match RealmArgs.Enabled args with
    | Some _ => RealmRepresentation.set_Enabled (RealmArgs.Enabled args) updateRealm
    | None => updateRealm
    end in
  let updateRealm :=
    match RealmArgs.DisplayName args with
    | Some _ => RealmRepresentation.set_DisplayName (RealmArgs.DisplayName args) updateRealm
    | None => updateRealm
    end in
  let updateRealm :=
    match RealmArgs.DisplayNameHtml args with
    | Some _ =>
        RealmRepresentation.set_DisplayNameHTML (RealmArgs.DisplayNameHtml args) updateRealm
    | None => updateRealm
    end in
  let updateRealm :=
    match RealmArgs.LoginTheme args with
    | Some _ => RealmRepresentation.set_LoginTheme (RealmArgs.LoginTheme args) updateRealm
    | None => updateRealm
    end in
  let updateRealm :=
    match RealmArgs.AccountTheme args with
    | Some _ => RealmRepresentation.set_AccountTheme (RealmArgs.AccountTheme args) updateRealm
    | None => updateRealm
    end in
  let updateRealm :=
    match RealmArgs.AdminTheme args with
    | Some _ => RealmRepresentation.set_AdminTheme (RealmArgs.AdminTheme args) updateRealm
    | None => updateRealm
    end in
  let updateRealm :=
    match RealmArgs.EmailTheme args with
    | Some _ => RealmRepresentation.set_EmailTheme (RealmArgs.EmailTheme args) updateRealm
    | None => updateRealm
    end in
  match RealmArgs.SmtpServer args with
  | Some _ =>
      let smtpConfig := convertSmtpConfig (RealmArgs.SmtpServer args) in
      RealmRepresentation.set_SMTPServer (Some smtpConfig) updateRealm
  | None => updateRealm
  end.

Definition updateManagedFields (client : GoCloak) (token : string) (args : RealmArgs.t)
  : M V (option error) :=
  r ← perform (GetRealm token (RealmArgs.Name args));
  match r with
  | inr err => mret (Some (Errorf "failed to get current realm: " err))
  | inl currentRealm =>
      err ← perform (UpdateRealm token (updateRealm args currentRealm));
      match err with
      | Some err => mret (Some (Errorf "failed to update realm: " err))
      | None => mret None
      end
  end.

Definition readRealmState (client : GoCloak) (token realmName : string)
  : M V (result RealmState.t) :=
  r ← perform (GetRealm token realmName);
  match r with
  | inr err => mret (Err (Errorf "failed to get realm: " err))
  | inl realm =>
      name ← deref (RealmRepresentation.Realm realm);
      let state := RealmState.mk name name None None None None None None None None in
      let state :=
        match RealmRepresentation.Enabled realm with
        | Some _ => RealmState.set_Enabled (RealmRepresentation.Enabled realm) state
        | None => state
        end in
      let state :=
        match RealmRepresentation.DisplayName realm with
        | Some _ => RealmState.set_DisplayName (RealmRepresentation.DisplayName realm) state
        | None => state
        end in
      let state :=
        match RealmRepresentation.DisplayNameHTML realm with
        | Some _ =>
            RealmState.set_DisplayNameHtml (RealmRepresentation.DisplayNameHTML realm) state
        | None => state
        end in
      let state :=
        match RealmRepresentation.LoginTheme realm with
        | Some _ => RealmState.set_LoginTheme (RealmRepresentation.LoginTheme realm) state
        | None => state
        end in
      let state :=
        match RealmRepresentation.AccountTheme realm with
        | Some _ => RealmState.set_AccountTheme (RealmRepresentation.AccountTheme realm) state
        | None => state
        end in
      let state :=
        match RealmRepresentation.AdminTheme realm with
        | Some _ => RealmState.set_AdminTheme (RealmRepresentation.AdminTheme realm) state
        | None => state
        end in
      let state :=
        match RealmRepresentation.EmailTheme realm with
        | Some _ => RealmState.set_EmailTheme (RealmRepresentation.EmailTheme realm) state
        | None => state
        end in
      let state :=
        match RealmRepresentation.SMTPServer realm with
        | Some keycloakSmtp =>
            RealmState.set_SmtpServer (convertFromKeycloakSmtp a keycloakSmtp) state
        | None => state
        end in
      mret (Ok state)
  end.

(** The state a dry run reports: the inputs, field by field. *)
Definition dryRunState (inputs : RealmArgs.t) : RealmState.t :=
  RealmState.mk (RealmArgs.Name inputs) (RealmArgs.Name inputs)
    (RealmArgs.Enabled inputs) (RealmArgs.DisplayName inputs)
    (RealmArgs.DisplayNameHtml inputs) (RealmArgs.LoginTheme inputs)
    (RealmArgs.AccountTheme inputs) (RealmArgs.AdminTheme inputs)
    (RealmArgs.EmailTheme inputs) (RealmArgs.SmtpServer inputs).

(** The realm [Create] sends to [CreateRealm] when the realm is absent. *)
Definition minimalRealm (inputs : RealmArgs.t) : RealmRepresentation.t V :=
  let enabled :=
    match RealmArgs.Enabled inputs with
    | Some enabled => enabled
    | None => true
    end in
  let minimalRealm :=
    RealmRepresentation.set_Enabled (Some enabled)
      (RealmRepresentation.set_Realm (Some (RealmArgs.Name inputs))
         RealmRepresentation.zero) in
  match RealmArgs.DisplayName inputs with
  | Some _ => RealmRepresentation.set_DisplayName (RealmArgs.DisplayName inputs) minimalRealm
  | None => minimalRealm
  end.

Definition Create (ctx : Ctx) (req : CreateRequest) : M V (result CreateResponse) :=
  config ← getProviderConfig ctx;
  client ← getKeycloakClient ctx;
  realm ← deref (Realm config);
  r ← perform (LoginAdmin (Username config) (Password config) realm);
  match r with
  | inr err => mret (Err (Errorf "failed to authenticate: " err))
  | inl token =>
      '(exists_, err) ← realmExists ctx client (RealmArgs.Name (create_Inputs req));
      match err with
      | Some err => mret (Err (Errorf "failed to check if realm exists: " err))
      | None =>
          if create_DryRun req then
            mret (Ok {| create_ID := RealmArgs.Name (create_Inputs req);
                        create_Output := dryRunState (create_Inputs req) |})
          else
            err ← (if negb exists_ then
                     r ← perform (CreateRealm (AccessToken token)
                                    (minimalRealm (create_Inputs req)));
                     match r with
                     | inr err => mret (Some err)
                     | inl _ => mret None
                     end
                   else mret None);
            match err with
            | Some err => mret (Err (Errorf "failed to create realm: " err))
            | None =>
                err ← updateManagedFields client (AccessToken token) (create_Inputs req);
                match err with
                | Some err => mret (Err (Errorf "failed to update managed fields: " err))
                | None =>
                    r ← readRealmState client (AccessToken token)
                          (RealmArgs.Name (create_Inputs req));
                    match r with
                    | inr err => mret (Err (Errorf "failed to read realm state: " err))
                    | inl state =>
                        mret (Ok {| create_ID := RealmArgs.Name (create_Inputs req);
                                    create_Output := state |})
                    end
                end
            end
      end
  end.

Definition Update (ctx : Ctx) (req : UpdateRequest) : M V (result UpdateResponse) :=
  config ← getProviderConfig ctx;
  client ← getKeycloakClient ctx;
  realm ← deref (Realm config);
  r ← perform (LoginAdmin (Username config) (Password config) realm);
  match r with
  | inr err => mret (Err (Errorf "failed to authenticate: " err))
  | inl token =>
      if update_DryRun req then
        mret (Ok {| update_Output := dryRunState (update_Inputs req) |})
      else
        err ← updateManagedFields client (AccessToken token) (update_Inputs req);
        match err with
        | Some err => mret (Err (Errorf "failed to update managed fields: " err))
        | None =>
            r ← readRealmState client (AccessToken token)
                  (RealmArgs.Name (update_Inputs req));
            match r with
            | inr err => mret (Err (Errorf "failed to read realm state: " err))
            | inl state => mret (Ok {| update_Output := state |})
            end
        end
  end.

Definition Delete (ctx : Ctx) (req : DeleteRequest) : M V (result DeleteResponse) :=
  config ← getProviderConfig ctx;
  client ← getKeycloakClient ctx;
  realm ← deref (Realm config);
  r ← perform (LoginAdmin (Username config) (Password config) realm);
  match r with
  | inr err => mret (Err (Errorf "failed to authenticate: " err))
  | inl token =>
      err ← perform (DeleteRealm (AccessToken token) (RealmState.Name (delete_State req)));
      match err with
      | Some err =>
          '(exists_, checkErr) ← realmExists ctx client (RealmState.Name (delete_State req));
          match checkErr with
          | None =>
              if negb exists_ then mret (Ok MkDeleteResponse)
              else mret (Err (Errorf "failed to delete realm: " err))
          | Some _ => mret (Err (Errorf "failed to delete realm: " err))
          end
      | None => mret (Ok MkDeleteResponse)
      end
  end.
End Realm.

(** ** Specification-level readings of a digit string *)

Definition is_digit (c : ascii) : bool :=
  ((char_0 <=? char_code c) && (char_code c <=? char_9))%Z.

Fixpoint all_digits (s : string) : bool :=
  match s with
  | EmptyString => true
  | String c rest => is_digit c && all_digits rest
  end.

(** The exact (unbounded) value of the digits of [s] read after [acc]. *)
Fixpoint decimal_from (s : string) (acc : Z) : Z :=
  match s with
  | EmptyString => acc
  | String c rest => decimal_from rest (acc * 10 + (char_code c - char_0))
  end.

Definition decimal_value (s : string) : Z := decimal_from s 0.

(** [s] has a character that is not a decimal digit. *)
Fixpoint has_non_digit (s : string) : bool :=
  match s with
  | EmptyString => false
  | String c rest => negb (is_digit c) || has_non_digit rest
  end.

(** The [auth] flag as [convertSmtpConfig] reads it: set and true. *)
Definition auth_on (c : SmtpServerConfig.t) : bool :=
  match SmtpServerConfig.Auth c with
  | Some true => true
  | _ => false
  end.

(** ** The fields a desired state may leave unset *)

Inductive managed_field : Type :=
| FEnabled | FDisplayName | FDisplayNameHtml | FLoginTheme
| FAccountTheme | FAdminTheme | FEmailTheme | FSmtpServer.

(** The attribute of the realm representation a managed field is written to. *)
Definition json_name (f : managed_field) : string :=
  match f with
  | FEnabled => "enabled"
  | FDisplayName => "displayName"
  | FDisplayNameHtml => "displayNameHtml"
  | FLoginTheme => "loginTheme"
  | FAccountTheme => "accountTheme"
  | FAdminTheme => "adminTheme"
  | FEmailTheme => "emailTheme"
  | FSmtpServer => "smtpServer"
  end.

(** The field is nil in the desired arguments. *)
Definition desired_absent (f : managed_field) (args : RealmArgs.t) : Prop :=
  match f with
  | FEnabled => RealmArgs.Enabled args = None
  | FDisplayName => RealmArgs.DisplayName args = None
  | FDisplayNameHtml => RealmArgs.DisplayNameHtml args = None
  | FLoginTheme => RealmArgs.LoginTheme args = None
  | FAccountTheme => RealmArgs.AccountTheme args = None
  | FAdminTheme => RealmArgs.AdminTheme args = None
  | FEmailTheme => RealmArgs.EmailTheme args = None
  | FSmtpServer => RealmArgs.SmtpServer args = None
  end.

(** Projections of a run. *)
Definition outcome_of {V S A} (r : outcome A * list (call V) * S) : outcome A := r.1.1.
Definition calls_of {V S A} (r : outcome A * list (call V) * S) : list (call V) := r.1.2.

(** ** A small remote system to run the provider against

    Realms are stored by name.  Logging in always succeeds; fetching,
    updating or deleting a realm that is not stored fails with ["404"]. *)
Section Keycloak.
Context {V : Type}.

Definition keycloak (c : call V) (s : gmap string (RealmRepresentation.t V))
  : reply c * gmap string (RealmRepresentation.t V) :=
  match c as c return reply c * gmap string (RealmRepresentation.t V) with
  | LoginAdmin _ _ _ => (Ok {| AccessToken := "token" |}, s)
  | GetRealm _ realmName =>
      match s !! realmName with
      | Some realm => (Ok realm, s)
      | None => (Err (APIError "404"), s)
      end
  | CreateRealm _ realm =>
      match RealmRepresentation.Realm realm with
      | Some realmName =>
          match s !! realmName with
          | Some _ => (Err (APIError "409"), s)
          | None => (Ok realmName, <[realmName := realm]> s)
          end
      | None => (Err (APIError "400"), s)
      end
  | UpdateRealm _ realm =>
      match RealmRepresentation.Realm realm with
      | Some realmName =>
          match s !! realmName with
          | Some _ => (None, <[realmName := realm]> s)
          | None => (Some (APIError "404"), s)
          end
      | None => (Some (APIError "400"), s)
      end
  | DeleteRealm _ realmName =>
      match s !! realmName with
      | Some _ => (None, delete realmName s)
      | None => (Some (APIError "404"), s)
      end
  end.

(** The same system with deletion refused. *)
Definition keycloak_no_delete (c : call V) (s : gmap string (RealmRepresentation.t V))
  : reply c * gmap string (RealmRepresentation.t V) :=
  match c as c return reply c * gmap string (RealmRepresentation.t V) with
  | DeleteRealm _ _ => (Some (APIError "403"), s)
  | c => keycloak c s
  end.
End Keycloak.

(** Sample values. *)
Module Sample.
Definition config : ProviderConfig :=
  {| URL := "http://localhost:8080"; Username := "admin"; Password := "admin";
     Realm := Some "master"; BasePath := Some "/"; Insecure := Some false |}.

Definition client : GoCloak := {| basePath := "http://localhost:8080" |}.

Definition ctx : Ctx := {| ctx_config := Some config; ctx_client := Some client |}.

(** The realm as it is stored remotely, with one attribute set by hand. *)
Definition acme : RealmRepresentation.t string :=
  RealmRepresentation.mk (Some "acme") (Some false) (Some "ACME") None None None None None
    None {["sslRequired" := "external"]}.

Definition acme_nameless : RealmRepresentation.t string :=
  RealmRepresentation.set_Realm None acme.

(** Remote systems: without realms, with [acme], and with a nameless
    realm stored under ["acme"]. *)
Definition no_realms : gmap string (RealmRepresentation.t string) := ∅.
Definition with_acme : gmap string (RealmRepresentation.t string) :=
  {["acme" := acme]}.
Definition with_nameless : gmap string (RealmRepresentation.t string) :=
  {["acme" := acme_nameless]}.

Definition token : JWT := {| AccessToken := "token" |}.
Definition login : call string := LoginAdmin "admin" "admin" "master".

(** Desired state that sets only the login theme. *)
Definition theme_only : RealmArgs.t :=
  RealmArgs.mk "acme" None None None (Some "custom") None None None None.

Definition smtp : SmtpServerConfig.t :=
  SmtpServerConfig.mk (Some "smtp.example.com") (Some 587) (Some "noreply@example.com")
    (Some "ACME") (Some true) (Some true) (Some "mailer") (Some "secret").

Definition smtp_negative_port : SmtpServerConfig.t :=
  SmtpServerConfig.set_Port (-1) smtp.

Definition acme_state : RealmState.t :=
  RealmState.mk "acme" "acme" (Some false) (Some "ACME") None None None None None None.
End Sample.

(** ** Reading a realm ([realm.go], [Read]) *)

Record ReadRequest : Type := {
  read_ID : string;
  read_Inputs : RealmArgs.t;
  read_State : RealmState.t
}.

Record ReadResponse : Type := {
  response_ID : string;
  response_Inputs : RealmArgs.t;
  response_State : RealmState.t
}.

(** [RealmArgs{}] and [RealmState{}] *)
Definition RealmArgs_zero : RealmArgs.t :=
  RealmArgs.mk "" None None None None None None None None.
Definition RealmState_zero : RealmState.t :=
  RealmState.mk "" "" None None None None None None None None.

(** [infer.ReadResponse[RealmArgs, RealmState]{}] *)
Definition ReadResponse_zero : ReadResponse :=
  {| response_ID := ""; response_Inputs := RealmArgs_zero;
     response_State := RealmState_zero |}.

Section RealmRead.
Context {V : Type}.
Variable a : IntSize.

Definition Read (ctx : Ctx) (req : ReadRequest) : M V (result ReadResponse) :=
  config ← getProviderConfig ctx;
  client ← getKeycloakClient ctx;
  realm ← deref (Realm config);
  r ← perform (LoginAdmin (Username config) (Password config) realm);
  match r with
  | inr err => mret (Err (Errorf "failed to authenticate: " err))
  | inl token =>
      '(exists_, err) ← realmExists ctx client (read_ID req);
      match err with
      | Some err => mret (Err (Errorf "failed to check if realm exists: " err))
      | None =>
          if negb exists_ then mret (Ok ReadResponse_zero)
          else
            r ← readRealmState a client (AccessToken token) (read_ID req);
            match r with
            | inr err => mret (Err (Errorf "failed to read realm state: " err))
            | inl state =>
                mret (Ok {| response_ID := read_ID req;
                            response_Inputs := read_Inputs req;
                            response_State := state |})
            end
      end
  end.
End RealmRead.

(** ** Configuring the provider ([config.go]) *)

(** [fmt.Errorf(msg)] without a wrapped cause: an error that is only its
    message. *)
Definition errorString (msg : string) : error := APIError msg.

Record KeycloakProvider : Type := {
  kp_config : option ProviderConfig;
  kp_client : option GoCloak;
  kp_token : option JWT
}.

(** [gocloak.NewClient(basePath)] *)
Definition NewClient (url : string) : GoCloak := {| basePath := url |}.

(** [Configure] works on its own copy of [config] and assigns fields of
    the provider [p]; the provider after the call is returned with the
    error. *)
Definition Configure {V} (p : KeycloakProvider) (config : ProviderConfig)
  : M V (KeycloakProvider * option error) :=
  if decide (URL config = "") then
    mret (p, Some (errorString "keycloak URL is required"))
  else if decide (Username config = "") then
    mret (p, Some (errorString "keycloak username is required"))
  else if decide (Password config = "") then
    mret (p, Some (errorString "keycloak password is required"))
  else
    let config :=
      match Realm config with
      | None =>
          {| URL := URL config; Username := Username config; Password := Password config;
             Realm := Some "master"; BasePath := BasePath config;
             Insecure := Insecure config |}
      | Some _ => config
      end in
    let config :=
      match BasePath config with
      | None =>
          {| URL := URL config; Username := Username config; Password := Password config;
             Realm := Realm config; BasePath := Some "/"; Insecure := Insecure config |}
      | Some _ => config
      end in
    let config :=
      match Insecure config with
      | None =>
          {| URL := URL config; Username := Username config; Password := Password config;
             Realm := Realm config; BasePath := BasePath config; Insecure := Some false |}
      | Some _ => config
      end in
    let p := {| kp_config := Some config; kp_client := kp_client p;
                kp_token := kp_token p |} in
    let client := NewClient (URL config) in
    realm ← deref (Realm config);
    r ← perform (LoginAdmin (Username config) (Password config) realm);
    match r with
    | inr err => mret (p, Some (Errorf "failed to authenticate with Keycloak: " err))
    | inl token =>
        mret ({| kp_config := kp_config p; kp_client := Some client;
                 kp_token := Some token |}, None)
    end.

(** [os.Getenv]: the value of the variable, empty when it is not set. *)
Definition Getenv (env : gmap string string) (key : string) : string :=
  default "" (env !! key).

Definition getEnvOrDefault (env : gmap string string) (key defaultValue : string) : string :=
  let value := Getenv env key in
  if decide (value <> "") then value else defaultValue.

Definition GetProviderConfigFromEnv (env : gmap string string) : ProviderConfig :=
  let config :=
    {| URL := getEnvOrDefault env "KEYCLOAK_URL" "";
       Username := getEnvOrDefault env "KEYCLOAK_USERNAME" "";
       Password := getEnvOrDefault env "KEYCLOAK_PASSWORD" "";
       Realm := None; BasePath := None; Insecure := None |} in
  let config :=
    let realm := getEnvOrDefault env "KEYCLOAK_REALM" "" in
    if decide (realm <> "") then
      {| URL := URL config; Username := Username config; Password := Password config;
         Realm := Some realm; BasePath := BasePath config; Insecure := Insecure config |}
    else config in
  let basePath := getEnvOrDefault env "KEYCLOAK_BASE_PATH" "" in
  if decide (basePath <> "") then
    {| URL := URL config; Username := Username config; Password := Password config;
       Realm := Realm config; BasePath := Some basePath; Insecure := Insecure config |}
  else config.

(** ** The one-step realm resource

    The repository holds a second copy of the realm resource
    ([src/unnamed/part_003]) whose [Create] sends the whole desired state
    to [CreateRealm] and whose codec and [readRealmState] are those above. *)
Module OneStep.
Section OneStep.
Context {V : Type}.
Variable a : IntSize.

Definition toKeycloakRealm (args : RealmArgs.t) : RealmRepresentation.t V :=
  let keycloakRealmRepresentation :=
    RealmRepresentation.set_Realm (Some (RealmArgs.Name args)) RealmRepresentation.zero in
  let keycloakRealmRepresentation :=
    match RealmArgs.Enabled args with
    | Some _ =>
        RealmRepresentation.set_Enabled (RealmArgs.Enabled args) keycloakRealmRepresentation
    | None =>
        let enabled := true in
        RealmRepresentation.set_Enabled (Some enabled) keycloakRealmRepresentation
    end in
  let keycloakRealmRepresentation :=
    match RealmArgs.DisplayName args with
    | Some _ =>
        RealmRepresentation.set_DisplayName (RealmArgs.DisplayName args)
          keycloakRealmRepresentation
    | None => keycloakRealmRepresentation
    end in
  let keycloakRealmRepresentation :=
    match RealmArgs.DisplayNameHtml args with
    | Some _ =>
        RealmRepresentation.set_DisplayNameHTML (RealmArgs.DisplayNameHtml args)
          keycloakRealmRepresentation
    | None => keycloakRealmRepresentation
    end in
  let keycloakRealmRepresentation :=
    match RealmArgs.LoginTheme args with
    | Some _ =>
        RealmRepresentation.set_LoginTheme (RealmArgs.LoginTheme args)
          keycloakRealmRepresentation
    | None => keycloakRealmRepresentation
    end in
  let keycloakRealmRepresentation :=
    match RealmArgs.AccountTheme args with
    | Some _ =>
        RealmRepresentation.set_AccountTheme (RealmArgs.AccountTheme args)
          keycloakRealmRepresentation
    | None => keycloakRealmRepresentation
    end in
  let keycloakRealmRepresentation :=
    match RealmArgs.AdminTheme args with
    | Some _ =>
        RealmRepresentation.set_AdminTheme (RealmArgs.AdminTheme args)
          keycloakRealmRepresentation
    | None => keycloakRealmRepresentation
    end in
  let keycloakRealmRepresentation :=
    match RealmArgs.EmailTheme args with
    | Some _ =>
        RealmRepresentation.set_EmailTheme (RealmArgs.EmailTheme args)
          keycloakRealmRepresentation
    | None => keycloakRealmRepresentation
    end in
  match RealmArgs.SmtpServer args with
  | Some _ =>
      let smtpConfig := convertSmtpConfig (RealmArgs.SmtpServer args) in
      RealmRepresentation.set_SMTPServer (Some smtpConfig) keycloakRealmRepresentation
  | None => keycloakRealmRepresentation
  end.

(** [config] is the provider configuration [infer.GetConfig] returns. *)
Definition Create (config : ProviderConfig) (req : CreateRequest)
  : M V (result CreateResponse) :=
  let client := NewClient (URL config) in
  realm ← deref (Realm config);
  r ← perform (LoginAdmin (Username config) (Password config) realm);
  match r with
  | inr err => mret (Err (Errorf "failed to authenticate: " err))
  | inl token =>
      if create_DryRun req then
        mret (Ok {| create_ID := RealmArgs.Name (create_Inputs req);
                    create_Output := dryRunState (create_Inputs req) |})
      else
        r ← perform (CreateRealm (AccessToken token) (toKeycloakRealm (create_Inputs req)));
        match r with
        | inr err => mret (Err (Errorf "failed to create realm: " err))
        | inl _ =>
            r ← readRealmState a client (AccessToken token)
                  (RealmArgs.Name (create_Inputs req));
            match r with
            | inr err => mret (Err (Errorf "failed to read realm state: " err))
            | inl state =>
                mret (Ok {| create_ID := RealmArgs.Name (create_Inputs req);
                            create_Output := state |})
            end
        end
  end.
End OneStep.
End OneStep.

(** ** Properties of all runs of a computation *)

(** Every call the computation can make, whatever the replies, satisfies [P]. *)
Fixpoint all_calls {V A} (P : call V -> Prop) (m : M V A) : Prop :=
  match m with
  | Ret _ => True
  | Panic _ => True
  | Do c k => P c /\ forall r, all_calls P (k r)
  end.

(** The computation does not panic, whatever the replies. *)
Fixpoint never_panics {V A} (m : M V A) : Prop :=
  match m with
  | Ret _ => True
  | Panic _ => False
  | Do c k => forall r, never_panics (k r)
  end.

(** Every value the computation can return satisfies [Q]. *)
Fixpoint always_returns {V A} (Q : A -> Prop) (m : M V A) : Prop :=
  match m with
  | Ret x => Q x
  | Panic _ => True
  | Do c k => forall r, always_returns Q (k r)
  end.

(** The computation makes at most [n] writing calls, whatever the replies. *)
Fixpoint writes_at_most {V A} (n : nat) (m : M V A) : Prop :=
  match m with
  | Ret _ => True
  | Panic _ => True
  | Do c k =>
      if is_write c then
        match n with
        | O => False
        | S n' => forall r, writes_at_most n' (k r)
        end
      else forall r, writes_at_most n (k r)
  end.

(** The three kinds of writing call. *)
Definition is_create {V} (c : call V) : bool :=
  match c with CreateRealm _ _ => true | _ => false end.
Definition is_update {V} (c : call V) : bool :=
  match c with UpdateRealm _ _ => true | _ => false end.
Definition is_delete {V} (c : call V) : bool :=
  match c with DeleteRealm _ _ => true | _ => false end.

(** The number of writing calls in a trace. *)
Definition count_writes {V} (calls : list (call V)) : nat :=
  length (filter (fun c => is_write c = true) calls).

(** The number of digits up to which every digit string is below the
    largest [int]. *)
Definition exact_digits (a : IntSize) : nat :=
  match a with Int32 => 9 | Int64 => 18 end.

(** The state [readRealmState] reports for a fetched realm named [name]. *)
Definition projection {V} (a : IntSize) (name : string) (realm : RealmRepresentation.t V)
  : RealmState.t :=
  RealmState.mk name name
    (RealmRepresentation.Enabled realm) (RealmRepresentation.DisplayName realm)
    (RealmRepresentation.DisplayNameHTML realm) (RealmRepresentation.LoginTheme realm)
    (RealmRepresentation.AccountTheme realm) (RealmRepresentation.AdminTheme realm)
    (RealmRepresentation.EmailTheme realm)
    (RealmRepresentation.SMTPServer realm ≫= convertFromKeycloakSmtp a).

(** The keys [convertSmtpConfig] writes and [convertFromKeycloakSmtp] reads. *)
Definition smtp_keys : list string :=
  ["host"; "port"; "from"; "fromDisplayName"; "starttls"; "auth"; "user"; "password"].

(** The value a desired state gives a managed field, as an attribute. *)
Definition desired_attribute {V} (f : managed_field) (args : RealmArgs.t) : option (attr V) :=
  match f with
  | FEnabled => ABool <$> RealmArgs.Enabled args
  | FDisplayName => AString <$> RealmArgs.DisplayName args
  | FDisplayNameHtml => AString <$> RealmArgs.DisplayNameHtml args
  | FLoginTheme => AString <$> RealmArgs.LoginTheme args
  | FAccountTheme => AString <$> RealmArgs.AccountTheme args
  | FAdminTheme => AString <$> RealmArgs.AdminTheme args
  | FEmailTheme => AString <$> RealmArgs.EmailTheme args
  | FSmtpServer =>
      (fun smtp => AStringMap (convertSmtpConfig (Some smtp))) <$> RealmArgs.SmtpServer args
  end.

(** The desired value where one is set, the other value elsewhere. *)
Definition desired_or {A} (desired other : option A) : option A :=
  match desired with
  | Some _ => desired
  | None => other
  end.

(** The desired state that asks for what [first] asks and, where [first]
    is silent, for what [second] asks, under the name of [first]. *)
Definition merge_args (first second : RealmArgs.t) : RealmArgs.t :=
  RealmArgs.mk (RealmArgs.Name first)
    (desired_or (RealmArgs.Enabled first) (RealmArgs.Enabled second))
    (desired_or (RealmArgs.DisplayName first) (RealmArgs.DisplayName second))
    (desired_or (RealmArgs.DisplayNameHtml first) (RealmArgs.DisplayNameHtml second))
    (desired_or (RealmArgs.LoginTheme first) (RealmArgs.LoginTheme second))
    (desired_or (RealmArgs.AccountTheme first) (RealmArgs.AccountTheme second))
    (desired_or (RealmArgs.AdminTheme first) (RealmArgs.AdminTheme second))
    (desired_or (RealmArgs.EmailTheme first) (RealmArgs.EmailTheme second))
    (desired_or (RealmArgs.SmtpServer first) (RealmArgs.SmtpServer second)).

(** ** More remote systems and sample values *)

(** The remote system of [keycloak] with every login refused. *)
Definition keycloak_login_refused {V} (c : call V) (s : gmap string (RealmRepresentation.t V))
  : reply c * gmap string (RealmRepresentation.t V) :=
  match c as c return reply c * gmap string (RealmRepresentation.t V) with
  | LoginAdmin _ _ _ => (Err (APIError "401"), s)
  | c => keycloak c s
  end.

Module Cases.
(** An SMTP configuration with credentials set and [auth] off. *)
Definition smtp_no_auth : SmtpServerConfig.t :=
  SmtpServerConfig.mk (Some "smtp.example.com") (Some 25) (Some "noreply@example.com")
    None (Some false) (Some false) (Some "mailer") (Some "secret").

(** What [smtp_no_auth] is read back as. *)
Definition smtp_no_auth_read : SmtpServerConfig.t :=
  SmtpServerConfig.mk (Some "smtp.example.com") (Some 25) (Some "noreply@example.com")
    None (Some false) (Some false) None None.

(** A remote SMTP map whose [auth] entry is not the exact string ["true"]. *)
Definition smtp_map_upper : gmap string string :=
  {["auth" := "TRUE"; "user" := "mailer"; "password" := "secret"]}.

Definition smtp_map_host : gmap string string := {["host" := "smtp.example.com"]}.

(** [acme] after the overlay of [Sample.theme_only]. *)
Definition acme_themed : RealmRepresentation.t string :=
  RealmRepresentation.set_LoginTheme (Some "custom") Sample.acme.

Definition acme_themed_state : RealmState.t :=
  RealmState.set_LoginTheme (Some "custom") Sample.acme_state.

Definition read_acme : ReadRequest :=
  {| read_ID := "acme"; read_Inputs := Sample.theme_only; read_State := Sample.acme_state |}.

(** A provider before [Configure], and configurations to give it. *)
Definition provider : KeycloakProvider :=
  {| kp_config := None; kp_client := None; kp_token := None |}.

Definition bare_config : ProviderConfig :=
  {| URL := "http://localhost:8080"; Username := "admin"; Password := "admin";
     Realm := None; BasePath := None; Insecure := None |}.

Definition no_url : ProviderConfig :=
  {| URL := ""; Username := "admin"; Password := "admin";
     Realm := None; BasePath := None; Insecure := None |}.
End Cases.

(** * Proofs *)

(** ** Wrap-around arithmetic *)

Lemma int_modulus_split (a : IntSize) :
  2 ^ int_bits a = 2 * 2 ^ (int_bits a - 1).
Proof. destruct a; reflexivity. Qed.

Lemma int_wrap_in_range (a : IntSize) (x : Z) : in_int_range a (int_wrap a x).
Proof.
  unfold in_int_range, int_wrap.
  pose proof (int_modulus_split a) as Hm.
  assert (0 < 2 ^ (int_bits a - 1)) by (destruct a; reflexivity).
  pose proof (Z.mod_pos_bound (x + 2 ^ (int_bits a - 1)) (2 ^ int_bits a)).
  lia.
Qed.

Lemma int_wrap_id (a : IntSize) (x : Z) : in_int_range a x -> int_wrap a x = x.
Proof.
  unfold in_int_range, int_wrap. intros Hx.
  pose proof (int_modulus_split a) as Hm.
  rewrite Z.mod_small by lia. lia.
Qed.

Lemma int_wrap_add_l (a : IntSize) (x y : Z) :
  int_wrap a (int_wrap a x + y) = int_wrap a (x + y).
Proof.
  unfold int_wrap. f_equal.
  replace ((x + 2 ^ (int_bits a - 1)) mod 2 ^ int_bits a - 2 ^ (int_bits a - 1)
           + y + 2 ^ (int_bits a - 1))
    with ((x + 2 ^ (int_bits a - 1)) mod 2 ^ int_bits a + y) by lia.
  rewrite Zplus_mod_idemp_l. f_equal. lia.
Qed.

Lemma int_wrap_mul_l (a : IntSize) (x k : Z) :
  int_wrap a (int_wrap a x * k) = int_wrap a (x * k).
Proof.
  unfold int_wrap. f_equal.
  assert (Hpos : 2 ^ int_bits a <> 0) by (destruct a; discriminate).
  pose proof (Z.div_mod (x + 2 ^ (int_bits a - 1)) (2 ^ int_bits a) Hpos) as Hd.
  set (q := (x + 2 ^ (int_bits a - 1)) / 2 ^ int_bits a) in *.
  set (r := (x + 2 ^ (int_bits a - 1)) mod 2 ^ int_bits a) in *.
  replace ((r - 2 ^ (int_bits a - 1)) * k + 2 ^ (int_bits a - 1))
    with (x * k + 2 ^ (int_bits a - 1) + (- q * k) * 2 ^ int_bits a) by lia.
  apply Z_mod_plus_full.
Qed.

(** One iteration of the loop on wrapped values follows the exact one. *)
Lemma int_wrap_step (a : IntSize) (acc d : Z) :
  int_wrap a (int_wrap a (int_wrap a acc * 10) + d) = int_wrap a (acc * 10 + d).
Proof. by rewrite int_wrap_mul_l, int_wrap_add_l. Qed.

(** ** [parseInt] *)

Lemma is_digit_guard (c : ascii) :
  ((char_code c <? char_0) || (char_code c >? char_9))%Z = negb (is_digit c).
Proof.
  unfold is_digit.
  destruct (Z.ltb_spec (char_code c) char_0), (Z.leb_spec char_0 (char_code c));
    destruct (Z.gtb_spec (char_code c) char_9), (Z.leb_spec (char_code c) char_9);
    simpl; lia || reflexivity.
Qed.

Lemma parseInt_loop_digits (a : IntSize) (s : string) (acc : Z) :
  all_digits s = true ->
  parseInt_loop a s (int_wrap a acc) = Some (int_wrap a (decimal_from s acc)).
Proof.
  revert acc. induction s as [|c rest IH]; intros acc Hs; simpl in *.
  - reflexivity.
  - apply andb_prop in Hs as [Hc Hrest].
    rewrite is_digit_guard, Hc. simpl.
    rewrite int_wrap_step. by apply IH.
Qed.

Lemma parseInt_loop_non_digit (a : IntSize) (s : string) (acc : Z) :
  has_non_digit s = true -> parseInt_loop a s acc = None.
Proof.
  revert acc. induction s as [|c rest IH]; intros acc Hs; simpl in *.
  - discriminate.
  - rewrite is_digit_guard. destruct (is_digit c); simpl in *; [by apply IH | reflexivity].
Qed.

Lemma int_wrap_0 (a : IntSize) : int_wrap a 0 = 0.
Proof. destruct a; reflexivity. Qed.

Lemma parseInt_digits (a : IntSize) (s : string) :
  s <> "" -> all_digits s = true ->
  parseInt a s = Some (int_wrap a (decimal_value s)).
Proof.
  intros Hne Hs. unfold parseInt, decimal_value.
  destruct (decide (s = "")) as [|_]; [done|].
  rewrite <- (int_wrap_0 a) at 1. by apply parseInt_loop_digits.
Qed.

Lemma parseInt_non_digit (a : IntSize) (s : string) :
  has_non_digit s = true -> parseInt a s = None.
Proof.
  intros Hs. unfold parseInt.
  destruct (decide (s = "")); [done|]. by apply parseInt_loop_non_digit.
Qed.

(** ** Printing a port and reading it back *)

Lemma string_of_uint_digits (d : uint) : all_digits (NilEmpty.string_of_uint d) = true.
Proof. induction d; simpl; auto. Qed.

Lemma decimal_from_uint_acc (d : uint) (acc : positive) :
  decimal_from (NilEmpty.string_of_uint d) (Z.pos acc) = Z.pos (Pos.of_uint_acc d acc).
Proof.
  revert acc. induction d; intros acc; simpl; try reflexivity;
    rewrite <- IHd; f_equal; unfold char_code, char_0; simpl; lia.
Qed.

Lemma decimal_from_uint (d : uint) :
  decimal_from (NilEmpty.string_of_uint d) 0 = Z.of_N (Pos.of_uint d).
Proof.
  induction d; simpl; try reflexivity; try apply IHd;
    match goal with
    | |- decimal_from _ ?x = _ => let v := eval vm_compute in x in change x with v
    end;
    apply decimal_from_uint_acc.
Qed.

Lemma string_of_uint_nonempty (d : uint) : d <> Nil -> NilEmpty.string_of_uint d <> "".
Proof. destruct d; simpl; congruence. Qed.

Lemma Sprintf_d_pos (q : positive) :
  Sprintf_d (Z.pos q) = NilEmpty.string_of_uint (Pos.to_uint q).
Proof.
  unfold Sprintf_d. simpl.
  pose proof (DecimalPos.Unsigned.to_uint_nonnil q) as Hn.
  destruct (Pos.to_uint q); simpl; congruence.
Qed.

Lemma parseInt_Sprintf_d (a : IntSize) (n : Z) :
  0 <= n -> in_int_range a n -> parseInt a (Sprintf_d n) = Some n.
Proof.
  intros Hn Hr. destruct n as [|q|q]; [by destruct a| |lia].
  rewrite Sprintf_d_pos.
  rewrite parseInt_digits.
  - unfold decimal_value.
    rewrite decimal_from_uint, DecimalPos.Unsigned.of_to. simpl.
    by rewrite int_wrap_id.
  - apply string_of_uint_nonempty, DecimalPos.Unsigned.to_uint_nonnil.
  - apply string_of_uint_digits.
Qed.

Lemma Sprintf_d_neg (q : positive) :
  Sprintf_d (Z.neg q) = String "-" (NilEmpty.string_of_uint (Pos.to_uint q)).
Proof.
  unfold Sprintf_d. simpl.
  pose proof (DecimalPos.Unsigned.to_uint_nonnil q) as Hn.
  destruct (Pos.to_uint q); simpl; congruence.
Qed.

Lemma parseInt_Sprintf_d_neg (a : IntSize) (n : Z) :
  n < 0 -> parseInt a (Sprintf_d n) = None.
Proof.
  intros Hn. destruct n as [|q|q]; [lia|lia|].
  rewrite Sprintf_d_neg. reflexivity.
Qed.

(** ** The SMTP codec *)

(** Decoding, key by key. *)
Lemma convertFromKeycloakSmtp_lookups (a : IntSize) (m : gmap string string) :
  size m <> 0%nat ->
  convertFromKeycloakSmtp a m =
    Some (SmtpServerConfig.mk
            (m !! "host")
            (m !! "port" ≫= parseInt a)
            (m !! "from")
            (m !! "fromDisplayName")
            ((fun v => bool_decide (v = "true")) <$> m !! "starttls")
            ((fun v => bool_decide (v = "true")) <$> m !! "auth")
            (match m !! "auth" with
             | Some v => if bool_decide (v = "true") then m !! "user" else None
             | None => None
             end)
            (match m !! "auth" with
             | Some v => if bool_decide (v = "true") then m !! "password" else None
             | None => None
             end)).
Proof.
  intros Hsize. unfold convertFromKeycloakSmtp.
  destruct (decide (size m = 0%nat)) as [|_]; [done|].
  destruct (m !! "host"), (m !! "port") as [port|], (m !! "from"),
    (m !! "fromDisplayName"), (m !! "starttls"), (m !! "auth") as [auth|];
    simpl; try destruct (parseInt a port); try destruct (bool_decide (auth = "true"));
    simpl; destruct (m !! "user"), (m !! "password"); reflexivity.
Qed.

Lemma lookup_insert_if_set (k k' : string) (o : option string) (r : gmap string string) :
  (match o with Some v => <[k' := v]> r | None => r end) !! k =
  if decide (k' = k) then (match o with Some v => Some v | None => r !! k end) else r !! k.
Proof.
  destruct o as [v|]; case_decide; subst;
    rewrite ?lookup_insert_eq, ?lookup_insert_ne by done; reflexivity.
Qed.

Ltac smtp_lookup :=
  repeat (rewrite lookup_insert_if_set || rewrite lookup_insert || rewrite lookup_empty);
  repeat case_decide; try congruence.

(** Encoding, key by key. *)
Lemma convertSmtpConfig_lookups (c : SmtpServerConfig.t) :
  let m := convertSmtpConfig (Some c) in
  m !! "host" = SmtpServerConfig.Host c /\
  m !! "port" = Sprintf_d <$> SmtpServerConfig.Port c /\
  m !! "from" = SmtpServerConfig.From c /\
  m !! "fromDisplayName" = SmtpServerConfig.FromName c /\
  m !! "starttls" =
    (fun b : bool => if b then "true" else "false") <$> SmtpServerConfig.StartTls c /\
  m !! "auth" = Some (if auth_on c then "true" else "false") /\
  m !! "user" = (if auth_on c then SmtpServerConfig.Username c else None) /\
  m !! "password" = (if auth_on c then SmtpServerConfig.Password c else None).
Proof.
  destruct c as [host port from fromName startTls auth user password].
  unfold convertSmtpConfig, auth_on; cbn [SmtpServerConfig.Host SmtpServerConfig.Port
      SmtpServerConfig.From SmtpServerConfig.FromName SmtpServerConfig.StartTls
      SmtpServerConfig.Auth SmtpServerConfig.Username SmtpServerConfig.Password].
  cbv zeta.
  destruct auth as [[|]|], startTls as [[|]|]; repeat split; smtp_lookup;
    by (destruct host, port, from, fromName, user, password).
Qed.

Lemma convertSmtpConfig_nonempty (c : SmtpServerConfig.t) :
  size (convertSmtpConfig (Some c)) <> 0%nat.
Proof.
  destruct (convertSmtpConfig_lookups c) as (_ & _ & _ & _ & _ & Hauth & _).
  intros Hsize. apply map_size_empty_iff in Hsize.
  rewrite Hsize, lookup_empty in Hauth. discriminate.
Qed.

(** ** Running computations *)

Lemma run_bind {V S A B} (remote : forall c : call V, S -> reply c * S)
    (m : M V A) (f : A -> M V B) (s : S) :
  run remote (bind m f) s =
    match run remote m s with
    | (Returned x, calls1, s1) =>
        let '(o, calls2, s2) := run remote (f x) s1 in (o, calls1 ++ calls2, s2)
    | (Panicked msg, calls1, s1) => (Panicked msg, calls1, s1)
    end.
Proof.
  revert s. induction m as [x|msg|c k IH]; intros s; simpl.
  - by destruct (run remote (f x) s) as [[o calls2] s2].
  - reflexivity.
  - destruct (remote c s) as [r s1]. rewrite IH.
    destruct (run remote (k r) s1) as [[[x|msg] calls1] s2]; [|reflexivity].
    by destruct (run remote (f x) s2) as [[o calls2] s3].
Qed.

(** ** The overlay *)

Section Overlay.
Context {V S : Type}.
Variable remote : forall c : call V, S -> reply c * S.

(** With the realm fetched, [updateManagedFields] sends exactly one
    update, whose payload is [updateRealm args currentRealm]. *)
Lemma run_updateManagedFields (client : GoCloak) (token : string) (args : RealmArgs.t)
    (currentRealm : RealmRepresentation.t V) (s s1 : S) :
  remote (GetRealm token (RealmArgs.Name args)) s = (Ok currentRealm, s1) ->
  run remote (updateManagedFields client token args) s =
    let r := remote (UpdateRealm token (updateRealm args currentRealm)) s1 in
    (Returned (Errorf "failed to update realm: " <$> r.1),
     [GetRealm token (RealmArgs.Name args);
      UpdateRealm token (updateRealm args currentRealm)], r.2).
Proof.
  intros Hget. unfold updateManagedFields, mbind, M_bind, perform. simpl.
  rewrite Hget. simpl.
  destruct (remote (UpdateRealm token (updateRealm args currentRealm)) s1) as [[err|] s2];
    reflexivity.
Qed.

Lemma updateRealm_Realm (args : RealmArgs.t) (currentRealm : RealmRepresentation.t V) :
  RealmRepresentation.Realm (updateRealm args currentRealm) =
    RealmRepresentation.Realm currentRealm.
Proof.
  destruct args as [name [e|] [dn|] [dh|] [lt|] [act|] [adt|] [et|] [sm|]]; reflexivity.
Qed.

Lemma updateRealm_Unmanaged (args : RealmArgs.t) (currentRealm : RealmRepresentation.t V) :
  RealmRepresentation.Unmanaged (updateRealm args currentRealm) =
    RealmRepresentation.Unmanaged currentRealm.
Proof.
  destruct args as [name [e|] [dn|] [dh|] [lt|] [act|] [adt|] [et|] [sm|]]; reflexivity.
Qed.

Lemma updateRealm_attribute (args : RealmArgs.t) (currentRealm : RealmRepresentation.t V)
    (x : string) :
  x ∉ written_fields ->
  attribute x (updateRealm args currentRealm) = attribute x currentRealm.
Proof.
  intros Hx. unfold written_fields in Hx.
  repeat (apply not_elem_of_cons in Hx as [? Hx]).
  unfold attribute. rewrite updateRealm_Realm, updateRealm_Unmanaged.
  destruct (decide (x = "realm")); [reflexivity|].
  repeat (destruct (decide (x = _)); [done|]).
  reflexivity.
Qed.

Lemma updateRealm_absent (f : managed_field) (args : RealmArgs.t)
    (currentRealm : RealmRepresentation.t V) :
  desired_absent f args ->
  attribute (json_name f) (updateRealm args currentRealm) =
    attribute (json_name f) currentRealm.
Proof.
  destruct args as [name e dn dh lt act adt et sm].
  destruct f; simpl; intros ->; unfold updateRealm; simpl;
    repeat match goal with
           | |- context [match ?o with Some _ => _ | None => _ end] =>
               is_var o; destruct o
           end; reflexivity.
Qed.

(** C1: with the realm fetched, the payload [updateManagedFields] sends
    to [UpdateRealm] agrees with the fetched snapshot on every attribute
    outside enabled, displayName, displayNameHtml, loginTheme,
    accountTheme, adminTheme, emailTheme and smtpServer, whatever the
    desired arguments are. *)
Theorem updateManagedFields_preserves_unmanaged
    (client : GoCloak) (token : string) (args : RealmArgs.t)
    (currentRealm : RealmRepresentation.t V) (s s1 : S) :
  remote (GetRealm token (RealmArgs.Name args)) s = (Ok currentRealm, s1) ->
  exists payload,
    calls_of (run remote (updateManagedFields client token args) s) =
      [GetRealm token (RealmArgs.Name args); UpdateRealm token payload] /\
    forall x, x ∉ written_fields -> attribute x payload = attribute x currentRealm.
Proof.
  intros Hget. exists (updateRealm args currentRealm). split.
  - unfold calls_of. by rewrite (run_updateManagedFields _ _ _ _ _ _ Hget).
  - intros x Hx. by apply updateRealm_attribute.
Qed.

(** C2: for each managed field that is nil in the desired arguments, the
    payload sent to [UpdateRealm] carries the fetched snapshot's value of
    the corresponding attribute, set or unset as it was. *)
Theorem updateManagedFields_absent_keeps_remote
    (client : GoCloak) (token : string) (args : RealmArgs.t) (f : managed_field)
    (currentRealm : RealmRepresentation.t V) (s s1 : S) :
  remote (GetRealm token (RealmArgs.Name args)) s = (Ok currentRealm, s1) ->
  desired_absent f args ->
  exists payload,
    calls_of (run remote (updateManagedFields client token args) s) =
      [GetRealm token (RealmArgs.Name args); UpdateRealm token payload] /\
    attribute (json_name f) payload = attribute (json_name f) currentRealm.
Proof.
  intros Hget Habs. exists (updateRealm args currentRealm). split.
  - unfold calls_of. by rewrite (run_updateManagedFields _ _ _ _ _ _ Hget).
  - by apply updateRealm_absent.
Qed.
End Overlay.

(** ** The resource lifecycle *)

#[local] Arguments minimalRealm : simpl never.
#[local] Arguments dryRunState : simpl never.

Section Lifecycle.
Context {V S : Type}.
Variable a : IntSize.
Variable remote : forall c : call V, S -> reply c * S.

Lemma realmExists_reads_only (ctx : Ctx) (client : GoCloak) (realmName : string) (s : S) :
  Forall (fun c => is_write c = false)
    (calls_of (run remote (realmExists ctx client realmName) s)).
Proof.
  unfold realmExists, getProviderConfig, calls_of, mbind, M_bind, perform.
  destruct (ctx_config ctx) as [config|]; simpl; [|constructor].
  destruct (Realm config) as [realm|]; simpl; [|constructor].
  destruct (remote (LoginAdmin _ _ realm) s) as [[token|err] s1]; simpl;
    [|by repeat constructor].
  destruct (remote (GetRealm _ realmName) s1) as [[r|err] s2]; simpl;
    [by repeat constructor|].
  destruct (_ || _); simpl; by repeat constructor.
Qed.

(** C8: with the realm fetched, [readRealmState] panics when the
    fetched realm has no name, and otherwise returns a state whose [ID]
    and [Name] are that name. *)
Theorem readRealmState_needs_realm_name
    (client : GoCloak) (token realmName : string) (realm : RealmRepresentation.t V)
    (s s1 : S) :
  remote (GetRealm token realmName) s = (Ok realm, s1) ->
  match RealmRepresentation.Realm realm with
  | None =>
      exists msg, outcome_of (run remote (readRealmState a client token realmName) s) =
                    Panicked msg
  | Some name =>
      exists state,
        outcome_of (run remote (readRealmState a client token realmName) s) =
          Returned (Ok state) /\
        RealmState.ID state = name /\ RealmState.Name state = name
  end.
Proof.
  intros Hget.
  unfold readRealmState, outcome_of, mbind, M_bind, perform. simpl. rewrite Hget.
  destruct realm as [[name|] e dn dh lt act adt et sm u]; simpl.
  - eexists. split; [reflexivity|].
    by destruct e, dn, dh, lt, act, adt, et, sm.
  - by eexists.
Qed.

Opaque updateManagedFields readRealmState realmExists.

(** C3, as the code has it: a dry-run [Create] makes no writing call;
    it logs in and runs the existence check, and when both succeed it
    returns the desired input as the reported state, under the
    identifier [desired.name]. *)
Theorem Create_dry_run_no_write (ctx : Ctx) (inputs : RealmArgs.t) (s : S) :
  let req := {| create_Inputs := inputs; create_DryRun := true |} in
  Forall (fun c => is_write c = false) (calls_of (run remote (Create a ctx req) s)) /\
  forall (config : ProviderConfig) (realm : string) (client : GoCloak) (token : JWT)
         (exists_ : bool) (calls : list (call V)) (s1 s2 : S),
    ctx_config ctx = Some config -> Realm config = Some realm ->
    ctx_client ctx = Some client ->
    remote (LoginAdmin (Username config) (Password config) realm) s = (Ok token, s1) ->
    run remote (realmExists ctx client (RealmArgs.Name inputs)) s1 =
      (Returned (exists_, None), calls, s2) ->
    run remote (Create a ctx req) s =
      (Returned (Ok {| create_ID := RealmArgs.Name inputs;
                       create_Output :=
                         RealmState.mk (RealmArgs.Name inputs) (RealmArgs.Name inputs)
                           (RealmArgs.Enabled inputs) (RealmArgs.DisplayName inputs)
                           (RealmArgs.DisplayNameHtml inputs) (RealmArgs.LoginTheme inputs)
                           (RealmArgs.AccountTheme inputs) (RealmArgs.AdminTheme inputs)
                           (RealmArgs.EmailTheme inputs) (RealmArgs.SmtpServer inputs) |}),
       LoginAdmin (Username config) (Password config) realm :: calls, s2).
Proof.
  intros req. split.
  - unfold Create, getProviderConfig, getKeycloakClient, calls_of, mbind, M_bind, perform.
    destruct (ctx_config ctx) as [config|]; simpl; [|constructor].
    destruct (ctx_client ctx) as [client|]; simpl; [|constructor].
    destruct (Realm config) as [realm|]; simpl; [|constructor].
    destruct (remote (LoginAdmin _ _ realm) s) as [[token|err] s1]; simpl;
      [|by repeat constructor].
    rewrite run_bind.
    pose proof (realmExists_reads_only ctx client (RealmArgs.Name inputs) s1) as Hro.
    unfold calls_of in Hro.
    destruct (run remote (realmExists ctx client _) s1)
      as [[[[ex [ce|]]|msg] calls] s2]; simpl in *;
      constructor; rewrite ?app_nil_r; done.
  - intros config realm client token ex calls s1 s2 Hcfg Hrealm Hclient Hlogin Hex.
    unfold Create, getProviderConfig, getKeycloakClient, mbind, M_bind, perform.
    rewrite Hcfg, Hclient. simpl. rewrite Hrealm. simpl. rewrite Hlogin. simpl.
    rewrite run_bind. rewrite Hex. simpl. by rewrite app_nil_r.
Qed.

(** C5: when the existence check finds the realm absent and the desired
    [enabled] is nil, [Create] sends [CreateRealm] a realm with [enabled]
    true; with a nil desired [enabled], [Update] sends [UpdateRealm] a
    payload whose [enabled] is the fetched realm's. *)
Theorem enabled_absent_create_vs_update :
  (forall (ctx : Ctx) (req : CreateRequest) (config : ProviderConfig) (realm : string)
          (client : GoCloak) (token : JWT) (calls : list (call V)) (s s1 s2 : S),
      ctx_config ctx = Some config -> Realm config = Some realm ->
      ctx_client ctx = Some client ->
      remote (LoginAdmin (Username config) (Password config) realm) s = (Ok token, s1) ->
      run remote (realmExists ctx client (RealmArgs.Name (create_Inputs req))) s1 =
        (Returned (false, None), calls, s2) ->
      create_DryRun req = false ->
      RealmArgs.Enabled (create_Inputs req) = None ->
      exists shell rest,
        calls_of (run remote (Create a ctx req) s) =
          LoginAdmin (Username config) (Password config) realm ::
          calls ++ CreateRealm (AccessToken token) shell :: rest /\
        RealmRepresentation.Realm shell = Some (RealmArgs.Name (create_Inputs req)) /\
        RealmRepresentation.Enabled shell = Some true) /\
  (forall (ctx : Ctx) (req : UpdateRequest) (config : ProviderConfig) (realm : string)
          (client : GoCloak) (token : JWT) (currentRealm : RealmRepresentation.t V)
          (s s1 s2 : S),
      ctx_config ctx = Some config -> Realm config = Some realm ->
      ctx_client ctx = Some client ->
      remote (LoginAdmin (Username config) (Password config) realm) s = (Ok token, s1) ->
      remote (GetRealm (AccessToken token) (RealmArgs.Name (update_Inputs req))) s1 =
        (Ok currentRealm, s2) ->
      update_DryRun req = false ->
      RealmArgs.Enabled (update_Inputs req) = None ->
      exists payload rest,
        calls_of (run remote (Update a ctx req) s) =
          LoginAdmin (Username config) (Password config) realm ::
          GetRealm (AccessToken token) (RealmArgs.Name (update_Inputs req)) ::
          UpdateRealm (AccessToken token) payload :: rest /\
        RealmRepresentation.Enabled payload = RealmRepresentation.Enabled currentRealm).
Proof.
  split.
  - intros ctx req config realm client token calls s s1 s2
      Hcfg Hrealm Hclient Hlogin Hex Hdry Hen.
    remember (calls_of (run remote (Create a ctx req) s)) as cs eqn:Hcs.
    unfold Create, getProviderConfig, getKeycloakClient, calls_of, mbind, M_bind, perform
      in Hcs.
    rewrite Hcfg, Hclient in Hcs. simpl in Hcs. rewrite Hrealm in Hcs. simpl in Hcs.
    rewrite Hlogin in Hcs. simpl in Hcs.
    rewrite run_bind, Hex, Hdry in Hcs. simpl in Hcs.
    destruct (remote (CreateRealm _ _) s2) as [r s3].
    match type of Hcs with context [run remote ?m s3] =>
      destruct (run remote m s3) as [[o rest] s4] end.
    simpl in Hcs. subst cs.
    exists (minimalRealm (create_Inputs req)), rest. split; [reflexivity|].
    unfold minimalRealm. rewrite Hen.
    by destruct (RealmArgs.DisplayName (create_Inputs req)).
  - intros ctx req config realm client token currentRealm s s1 s2
      Hcfg Hrealm Hclient Hlogin Hget Hdry Hen.
    remember (calls_of (run remote (Update a ctx req) s)) as cs eqn:Hcs.
    unfold Update, getProviderConfig, getKeycloakClient, calls_of, mbind, M_bind, perform
      in Hcs.
    rewrite Hcfg, Hclient in Hcs. simpl in Hcs. rewrite Hrealm in Hcs. simpl in Hcs.
    rewrite Hlogin, Hdry in Hcs. simpl in Hcs.
    rewrite run_bind, (run_updateManagedFields remote _ _ _ _ _ _ Hget) in Hcs.
    simpl in Hcs.
    match type of Hcs with context [run remote ?m ?s3] =>
      destruct (run remote m s3) as [[o rest] s4] end.
    simpl in Hcs. subst cs.
    exists (updateRealm (update_Inputs req) currentRealm), rest.
    split; [reflexivity|].
    destruct (update_Inputs req) as [name e dn dh lt act adt et sm].
    simpl in Hen. subst e. unfold updateRealm. simpl.
    by destruct dn, dh, lt, act, adt, et, sm.
Qed.

(** C6: when the remote delete fails, [Delete] runs the existence
    check; it succeeds exactly when the check returns no error and
    reports the realm absent, and otherwise returns the deletion error
    wrapped as the cause of its own. *)
Theorem Delete_failed_rechecks_existence
    (ctx : Ctx) (req : DeleteRequest) (config : ProviderConfig) (realm : string)
    (client : GoCloak) (token : JWT) (err : error) (exists_ : bool)
    (checkErr : option error) (calls : list (call V)) (s s1 s2 s3 : S) :
  ctx_config ctx = Some config -> Realm config = Some realm ->
  ctx_client ctx = Some client ->
  remote (LoginAdmin (Username config) (Password config) realm) s = (Ok token, s1) ->
  remote (DeleteRealm (AccessToken token) (RealmState.Name (delete_State req))) s1 =
    (Some err, s2) ->
  run remote (realmExists ctx client (RealmState.Name (delete_State req))) s2 =
    (Returned (exists_, checkErr), calls, s3) ->
  outcome_of (run remote (Delete ctx req) s) =
    Returned (match checkErr, exists_ with
              | None, false => Ok MkDeleteResponse
              | _, _ => Err (Errorf "failed to delete realm: " err)
              end).
Proof.
  intros Hcfg Hrealm Hclient Hlogin Hdelete Hex.
  unfold Delete, getProviderConfig, getKeycloakClient, outcome_of, mbind, M_bind, perform.
  rewrite Hcfg, Hclient. simpl. rewrite Hrealm. simpl. rewrite Hlogin. simpl.
  rewrite Hdelete. simpl. rewrite run_bind, Hex.
  by destruct checkErr, exists_.
Qed.

Transparent updateManagedFields readRealmState realmExists.
End Lifecycle.

(** ** Properties of the codec *)

(** C9: a non-empty string of decimal digits parses to its exact value
    reduced by two's complement wrap-around to the width of [int], never to
    nil, so a value past the largest [int] comes back wrapped (negative for
    the first value out of range); the empty string parses to nil. *)
Theorem parseInt_wraps_on_overflow (a : IntSize) :
  (forall s : string,
      s <> "" -> all_digits s = true ->
      parseInt a s = Some (int_wrap a (decimal_value s)) /\
      in_int_range a (int_wrap a (decimal_value s)) /\
      (int_wrap a (decimal_value s) - decimal_value s) mod 2 ^ int_bits a = 0) /\
  parseInt a "" = None /\
  parseInt Int64 "9223372036854775807" = Some 9223372036854775807 /\
  parseInt Int64 "9223372036854775808" = Some (-9223372036854775808) /\
  parseInt Int32 "2147483648" = Some (-2147483648) /\
  parseInt Int32 "4294967301" = Some 5.
Proof.
  split; [|by repeat split].
  intros s Hne Hs. split; [by apply parseInt_digits|].
  split; [apply int_wrap_in_range|].
  unfold int_wrap.
  assert (Hpos : 2 ^ int_bits a <> 0) by (destruct a; discriminate).
  pose proof (Z.div_mod (decimal_value s + 2 ^ (int_bits a - 1)) (2 ^ int_bits a) Hpos) as Hd.
  set (q := (decimal_value s + 2 ^ (int_bits a - 1)) / 2 ^ int_bits a) in *.
  set (r := (decimal_value s + 2 ^ (int_bits a - 1)) mod 2 ^ int_bits a) in *.
  replace (r - 2 ^ (int_bits a - 1) - decimal_value s) with (0 + (- q) * 2 ^ int_bits a) by lia.
  by rewrite Z_mod_plus_full.
Qed.

(** C7: ["587"] parses to 587; a string with a character that is not a
    decimal digit parses to nil; and a map whose ["port"] entry is such a
    string still decodes, to a configuration with no port. *)
Theorem port_decoding (a : IntSize) :
  parseInt a "587" = Some 587 /\
  parseInt a "abc" = None /\
  (forall s : string, has_non_digit s = true -> parseInt a s = None) /\
  (forall (keycloakSmtp : gmap string string) (s : string),
      keycloakSmtp !! "port" = Some s -> has_non_digit s = true ->
      exists smtp, convertFromKeycloakSmtp a keycloakSmtp = Some smtp /\
                   SmtpServerConfig.Port smtp = None).
Proof.
  split; [by destruct a|]. split; [by destruct a|]. split.
  - intros s Hs. by apply parseInt_non_digit.
  - intros m s Hport Hs.
    assert (Hsize : size m <> 0%nat).
    { intros Hz. apply map_size_empty_iff in Hz. by rewrite Hz, lookup_empty in Hport. }
    rewrite (convertFromKeycloakSmtp_lookups a m Hsize).
    eexists. split; [reflexivity|]. simpl.
    rewrite Hport. simpl. by apply parseInt_non_digit.
Qed.

(** C10: whatever the configuration, the encoded map has an ["auth"]
    entry, ["true"] when [Auth] is set and true and ["false"] otherwise, so
    it is not empty, and it decodes to a configuration whose [Auth] is set,
    to false when the source left it unset. *)
Theorem convertSmtpConfig_always_emits_auth (a : IntSize) (smtp : SmtpServerConfig.t) :
  convertSmtpConfig (Some smtp) !! "auth" =
    Some (match SmtpServerConfig.Auth smtp with
          | Some true => "true"
          | _ => "false"
          end) /\
  (0 < size (convertSmtpConfig (Some smtp)))%nat /\
  exists decoded,
    convertFromKeycloakSmtp a (convertSmtpConfig (Some smtp)) = Some decoded /\
    SmtpServerConfig.Auth decoded =
      Some (match SmtpServerConfig.Auth smtp with
            | Some true => true
            | _ => false
            end).
Proof.
  destruct (convertSmtpConfig_lookups smtp) as (_ & _ & _ & _ & _ & Hauth & _).
  pose proof (convertSmtpConfig_nonempty smtp) as Hsize.
  cbv zeta in Hauth. unfold auth_on in Hauth.
  split; [rewrite Hauth; by destruct (SmtpServerConfig.Auth smtp) as [[|]|]|].
  split; [lia|].
  rewrite (convertFromKeycloakSmtp_lookups a _ Hsize).
  eexists. split; [reflexivity|]. cbn [SmtpServerConfig.Auth]. rewrite Hauth.
  by destruct (SmtpServerConfig.Auth smtp) as [[|]|].
Qed.

(** C4, as the code has it: for a configuration whose port, when set, is
    a non-negative [int], decoding the encoded map gives back host, port,
    from, fromName and startTls as they were, [auth] set to whether it was
    set and true, and username and password as they were when [auth] was
    true and unset otherwise. *)
Theorem smtp_round_trip (a : IntSize) (smtp : SmtpServerConfig.t) :
  (forall port, SmtpServerConfig.Port smtp = Some port ->
                0 <= port /\ in_int_range a port) ->
  convertFromKeycloakSmtp a (convertSmtpConfig (Some smtp)) =
    Some (SmtpServerConfig.mk
            (SmtpServerConfig.Host smtp) (SmtpServerConfig.Port smtp)
            (SmtpServerConfig.From smtp) (SmtpServerConfig.FromName smtp)
            (SmtpServerConfig.StartTls smtp)
            (Some (auth_on smtp))
            (if auth_on smtp then SmtpServerConfig.Username smtp else None)
            (if auth_on smtp then SmtpServerConfig.Password smtp else None)).
Proof.
  intros Hport.
  rewrite (convertFromKeycloakSmtp_lookups a _ (convertSmtpConfig_nonempty smtp)).
  destruct (convertSmtpConfig_lookups smtp)
    as (Hh & Hp & Hf & Hfn & Hst & Hau & Hu & Hpw).
  cbv zeta in *. rewrite Hh, Hp, Hf, Hfn, Hst, Hau, Hu, Hpw. simpl.
  f_equal. f_equal.
  - destruct (SmtpServerConfig.Port smtp) as [port|]; [|reflexivity]. simpl.
    destruct (Hport port eq_refl). by apply parseInt_Sprintf_d.
  - by destruct (SmtpServerConfig.StartTls smtp) as [[|]|].
  - by destruct (auth_on smtp).
  - by destruct (auth_on smtp).
  - by destruct (auth_on smtp).
Qed.

(** C4 as stated fails on a negative port: it is printed with a minus
    sign, which [parseInt] rejects, so a port that is set comes back unset. *)
Lemma smtp_round_trip_loses_negative_port :
  SmtpServerConfig.Port Sample.smtp_negative_port = Some (-1) /\
  exists decoded,
    convertFromKeycloakSmtp Int64 (convertSmtpConfig (Some Sample.smtp_negative_port)) =
      Some decoded /\
    SmtpServerConfig.Port decoded = None /\
    SmtpServerConfig.Port decoded <> SmtpServerConfig.Port Sample.smtp_negative_port.
Proof.
  split; [reflexivity|]. eexists. split; [vm_compute; reflexivity|].
  split; [reflexivity|discriminate].
Qed.

(** ** Concrete runs *)

(** C3 as stated fails: a dry-run [Create] logs in, then logs in again and
    fetches the realm for the existence check, before it looks at the
    dry-run flag. *)
Lemma Create_dry_run_calls_remote :
  calls_of (run keycloak
              (Create Int64 Sample.ctx
                 {| create_Inputs := Sample.theme_only; create_DryRun := true |})
              Sample.no_realms) =
    [Sample.login; Sample.login; GetRealm "token" "acme"] /\
  calls_of (run keycloak
              (Create Int64 Sample.ctx
                 {| create_Inputs := Sample.theme_only; create_DryRun := true |})
              Sample.no_realms) <> [].
Proof. split; [reflexivity|discriminate]. Qed.

Lemma updateManagedFields_preserves_unmanaged_witness :
  keycloak (GetRealm "token" "acme") Sample.with_acme = (Ok Sample.acme, Sample.with_acme) /\
  exists payload,
    calls_of (run keycloak
                (updateManagedFields Sample.client "token" Sample.theme_only)
                Sample.with_acme) =
      [GetRealm "token" "acme"; UpdateRealm "token" payload] /\
    forall x, x ∉ written_fields -> attribute x payload = attribute x Sample.acme.
Proof.
  split; [reflexivity|].
  apply (updateManagedFields_preserves_unmanaged keycloak Sample.client "token"
           Sample.theme_only Sample.acme Sample.with_acme Sample.with_acme).
  reflexivity.
Defined.

Lemma updateManagedFields_absent_keeps_remote_witness :
  keycloak (GetRealm "token" "acme") Sample.with_acme = (Ok Sample.acme, Sample.with_acme) /\
  desired_absent FEnabled Sample.theme_only /\
  exists payload,
    calls_of (run keycloak
                (updateManagedFields Sample.client "token" Sample.theme_only)
                Sample.with_acme) =
      [GetRealm "token" "acme"; UpdateRealm "token" payload] /\
    attribute "enabled" payload = attribute "enabled" Sample.acme.
Proof.
  split; [reflexivity|]. split; [reflexivity|].
  apply (updateManagedFields_absent_keeps_remote keycloak Sample.client "token"
           Sample.theme_only FEnabled Sample.acme Sample.with_acme Sample.with_acme);
    reflexivity.
Defined.

Lemma Create_dry_run_no_write_witness :
  ctx_config Sample.ctx = Some Sample.config /\
  Realm Sample.config = Some "master" /\
  ctx_client Sample.ctx = Some Sample.client /\
  keycloak Sample.login Sample.no_realms = (Ok Sample.token, Sample.no_realms) /\
  run keycloak (realmExists Sample.ctx Sample.client "acme") Sample.no_realms =
    (Returned (false, None), [Sample.login; GetRealm "token" "acme"], Sample.no_realms) /\
  run keycloak
    (Create Int64 Sample.ctx
       {| create_Inputs := Sample.theme_only; create_DryRun := true |})
    Sample.no_realms =
    (Returned (Ok {| create_ID := "acme";
                     create_Output :=
                       RealmState.mk "acme" "acme" None None None (Some "custom")
                         None None None None |}),
     [Sample.login; Sample.login; GetRealm "token" "acme"], Sample.no_realms).
Proof.
  repeat (split; [reflexivity|]).
  apply (proj2 (Create_dry_run_no_write Int64 keycloak Sample.ctx Sample.theme_only
                  Sample.no_realms)
           Sample.config "master" Sample.client Sample.token false
           [Sample.login; GetRealm "token" "acme"] Sample.no_realms Sample.no_realms);
    reflexivity.
Defined.

Lemma smtp_round_trip_witness :
  (forall port, SmtpServerConfig.Port Sample.smtp = Some port ->
                0 <= port /\ in_int_range Int64 port) /\
  convertFromKeycloakSmtp Int64 (convertSmtpConfig (Some Sample.smtp)) = Some Sample.smtp.
Proof.
  assert (Hport : forall port, SmtpServerConfig.Port Sample.smtp = Some port ->
                               0 <= port /\ in_int_range Int64 port).
  { intros port [= <-]. unfold in_int_range. simpl. lia. }
  split; [exact Hport|].
  apply (smtp_round_trip Int64 Sample.smtp Hport).
Defined.

Lemma enabled_absent_create_vs_update_witness :
  (exists shell rest,
      calls_of (run keycloak
                  (Create Int64 Sample.ctx
                     {| create_Inputs := Sample.theme_only; create_DryRun := false |})
                  Sample.no_realms) =
        Sample.login :: [Sample.login; GetRealm "token" "acme"] ++
        CreateRealm "token" shell :: rest /\
      RealmRepresentation.Realm shell = Some "acme" /\
      RealmRepresentation.Enabled shell = Some true) /\
  (exists payload rest,
      calls_of (run keycloak
                  (Update Int64 Sample.ctx
                     {| update_Inputs := Sample.theme_only; update_DryRun := false |})
                  Sample.with_acme) =
        Sample.login :: GetRealm "token" "acme" :: UpdateRealm "token" payload :: rest /\
      RealmRepresentation.Enabled payload = Some false).
Proof.
  split.
  - apply (proj1 (enabled_absent_create_vs_update Int64 keycloak) Sample.ctx
             {| create_Inputs := Sample.theme_only; create_DryRun := false |}
             Sample.config "master" Sample.client Sample.token
             [Sample.login; GetRealm "token" "acme"]
             Sample.no_realms Sample.no_realms Sample.no_realms);
      reflexivity.
  - apply (proj2 (enabled_absent_create_vs_update Int64 keycloak) Sample.ctx
             {| update_Inputs := Sample.theme_only; update_DryRun := false |}
             Sample.config "master" Sample.client Sample.token Sample.acme
             Sample.with_acme Sample.with_acme Sample.with_acme);
      reflexivity.
Defined.

Lemma Delete_failed_rechecks_existence_witness :
  outcome_of (run keycloak (Delete Sample.ctx {| delete_State := Sample.acme_state |})
                Sample.no_realms) =
    Returned (Ok MkDeleteResponse) /\
  outcome_of (run keycloak_no_delete
                (Delete Sample.ctx {| delete_State := Sample.acme_state |})
                Sample.with_acme) =
    Returned (Err (Errorf "failed to delete realm: " (APIError "403"))).
Proof.
  split.
  - apply (Delete_failed_rechecks_existence keycloak Sample.ctx
             {| delete_State := Sample.acme_state |} Sample.config "master" Sample.client
             Sample.token (APIError "404") false None
             [Sample.login; GetRealm "token" "acme"]
             Sample.no_realms Sample.no_realms Sample.no_realms Sample.no_realms);
      reflexivity.
  - apply (Delete_failed_rechecks_existence keycloak_no_delete Sample.ctx
             {| delete_State := Sample.acme_state |} Sample.config "master" Sample.client
             Sample.token (APIError "403") true None
             [Sample.login; GetRealm "token" "acme"]
             Sample.with_acme Sample.with_acme Sample.with_acme Sample.with_acme);
      reflexivity.
Defined.

Lemma port_decoding_witness :
  has_non_digit "5a7" = true /\
  parseInt Int64 "5a7" = None /\
  ({["port" := "abc"; "auth" := "false"]} : gmap string string) !! "port" = Some "abc" /\
  has_non_digit "abc" = true /\
  exists smtp,
    convertFromKeycloakSmtp Int64 {["port" := "abc"; "auth" := "false"]} = Some smtp /\
    SmtpServerConfig.Port smtp = None.
Proof.
  destruct (port_decoding Int64) as (_ & _ & Hparse & Hdecode).
  split; [reflexivity|]. split; [apply Hparse; reflexivity|].
  split; [reflexivity|]. split; [reflexivity|].
  apply (Hdecode _ "abc"); reflexivity.
Defined.

Lemma readRealmState_needs_realm_name_witness :
  (exists msg,
      outcome_of (run keycloak (readRealmState Int64 Sample.client "token" "acme")
                    Sample.with_nameless) = Panicked msg) /\
  (exists state,
      outcome_of (run keycloak (readRealmState Int64 Sample.client "token" "acme")
                    Sample.with_acme) = Returned (Ok state) /\
      RealmState.ID state = "acme" /\ RealmState.Name state = "acme").
Proof.
  split.
  - apply (readRealmState_needs_realm_name Int64 keycloak Sample.client "token" "acme"
             Sample.acme_nameless Sample.with_nameless Sample.with_nameless).
    reflexivity.
  - apply (readRealmState_needs_realm_name Int64 keycloak Sample.client "token" "acme"
             Sample.acme Sample.with_acme Sample.with_acme).
    reflexivity.
Defined.

Lemma parseInt_wraps_on_overflow_witness :
  "18446744073709551621" <> "" /\
  all_digits "18446744073709551621" = true /\
  parseInt Int64 "18446744073709551621" =
    Some (int_wrap Int64 (decimal_value "18446744073709551621")) /\
  int_wrap Int64 (decimal_value "18446744073709551621") = 5.
Proof.
  split; [discriminate|]. split; [reflexivity|].
  split; [|reflexivity].
  apply (proj1 (parseInt_wraps_on_overflow Int64) "18446744073709551621");
    [discriminate|reflexivity].
Defined.

(** * Further properties *)

(** ** The overlay, as a function of the fetched realm *)

Section OverlayAlgebra.
Context {V : Type}.

(** The payload, field by field: the desired value where one is set, the
    fetched one elsewhere. *)
Lemma updateRealm_fields (args : RealmArgs.t) (currentRealm : RealmRepresentation.t V) :
  updateRealm args currentRealm =
    RealmRepresentation.mk
      (RealmRepresentation.Realm currentRealm)
      (desired_or (RealmArgs.Enabled args) (RealmRepresentation.Enabled currentRealm))
      (desired_or (RealmArgs.DisplayName args) (RealmRepresentation.DisplayName currentRealm))
      (desired_or (RealmArgs.DisplayNameHtml args)
         (RealmRepresentation.DisplayNameHTML currentRealm))
      (desired_or (RealmArgs.LoginTheme args) (RealmRepresentation.LoginTheme currentRealm))
      (desired_or (RealmArgs.AccountTheme args)
         (RealmRepresentation.AccountTheme currentRealm))
      (desired_or (RealmArgs.AdminTheme args) (RealmRepresentation.AdminTheme currentRealm))
      (desired_or (RealmArgs.EmailTheme args) (RealmRepresentation.EmailTheme currentRealm))
      (desired_or ((fun smtp => convertSmtpConfig (Some smtp)) <$> RealmArgs.SmtpServer args)
         (RealmRepresentation.SMTPServer currentRealm))
      (RealmRepresentation.Unmanaged currentRealm).
Proof.
  destruct args as [name [e|] [dn|] [dh|] [lt|] [act|] [adt|] [et|] [sm|]];
    destruct currentRealm; reflexivity.
Qed.

(** X1: applying the overlay twice with the same desired state gives the
    payload of applying it once. *)
Theorem updateRealm_idempotent (args : RealmArgs.t) (currentRealm : RealmRepresentation.t V) :
  updateRealm args (updateRealm args currentRealm) = updateRealm args currentRealm.
Proof.
  rewrite !updateRealm_fields. simpl. f_equal.
  - by destruct (RealmArgs.Enabled args).
  - by destruct (RealmArgs.DisplayName args).
  - by destruct (RealmArgs.DisplayNameHtml args).
  - by destruct (RealmArgs.LoginTheme args).
  - by destruct (RealmArgs.AccountTheme args).
  - by destruct (RealmArgs.AdminTheme args).
  - by destruct (RealmArgs.EmailTheme args).
  - by destruct (RealmArgs.SmtpServer args).
Qed.

(** X2: overlaying [second] and then [first] is one overlay of their
    merge, in which [first] wins wherever it sets a field. *)
Theorem updateRealm_compose (first second : RealmArgs.t)
    (currentRealm : RealmRepresentation.t V) :
  updateRealm first (updateRealm second currentRealm) =
    updateRealm (merge_args first second) currentRealm.
Proof.
  rewrite !updateRealm_fields. unfold merge_args. simpl. f_equal.
  - by destruct (RealmArgs.Enabled first).
  - by destruct (RealmArgs.DisplayName first).
  - by destruct (RealmArgs.DisplayNameHtml first).
  - by destruct (RealmArgs.LoginTheme first).
  - by destruct (RealmArgs.AccountTheme first).
  - by destruct (RealmArgs.AdminTheme first).
  - by destruct (RealmArgs.EmailTheme first).
  - by destruct (RealmArgs.SmtpServer first).
Qed.

(** X3: a managed field that is set in the desired state is written to
    the payload with the desired value, whatever the fetched realm holds;
    a desired SMTP configuration replaces the fetched map as a whole. *)
Theorem updateRealm_writes_desired (f : managed_field) (args : RealmArgs.t)
    (currentRealm : RealmRepresentation.t V) :
  ~ desired_absent f args ->
  attribute (json_name f) (updateRealm args currentRealm) = desired_attribute f args.
Proof.
  intros Hset. rewrite updateRealm_fields.
  destruct f; simpl in Hset; unfold attribute; simpl;
    match type of Hset with
    | ?x <> None => by destruct x
    end.
Qed.

(** X4: the realm the one-step resource sends to [CreateRealm] is the
    overlay of the desired state on the minimal realm of the two-step
    [Create]. *)
Theorem toKeycloakRealm_is_overlay_of_minimalRealm (args : RealmArgs.t) :
  OneStep.toKeycloakRealm (V := V) args = updateRealm args (minimalRealm args).
Proof.
  destruct args as [name [e|] [dn|] [dh|] [lt|] [act|] [adt|] [et|] [sm|]]; reflexivity.
Qed.
End OverlayAlgebra.

(** ** The SMTP codec, key by key *)

Lemma not_in_smtp_keys (k : string) :
  k ∉ smtp_keys ->
  "host" <> k /\ "port" <> k /\ "from" <> k /\ "fromDisplayName" <> k /\
  "starttls" <> k /\ "auth" <> k /\ "user" <> k /\ "password" <> k.
Proof.
  unfold smtp_keys. intros Hk.
  repeat (apply not_elem_of_cons in Hk as [? Hk]). by repeat split.
Qed.

Lemma in_smtp_keys (k : string) :
  k ∈ smtp_keys ->
  k = "host" \/ k = "port" \/ k = "from" \/ k = "fromDisplayName" \/
  k = "starttls" \/ k = "auth" \/ k = "user" \/ k = "password".
Proof.
  unfold smtp_keys. intros Hk.
  repeat (apply elem_of_cons in Hk as [->|Hk]; [tauto|]).
  by apply elem_of_nil in Hk.
Qed.

(** The encoded map has no entry under any other key. *)
Lemma convertSmtpConfig_lookup_other (c : SmtpServerConfig.t) (k : string) :
  k ∉ smtp_keys -> convertSmtpConfig (Some c) !! k = None.
Proof.
  intros Hk. apply not_in_smtp_keys in Hk as (? & ? & ? & ? & ? & ? & ? & ?).
  destruct c as [host [port|] from fromName [[|]|] [[|]|] user password];
    unfold convertSmtpConfig;
    cbn [SmtpServerConfig.Host SmtpServerConfig.Port
      SmtpServerConfig.From SmtpServerConfig.FromName SmtpServerConfig.StartTls
      SmtpServerConfig.Auth SmtpServerConfig.Username SmtpServerConfig.Password];
    cbv zeta;
    repeat (rewrite lookup_insert_if_set || rewrite lookup_insert_ne by done);
    repeat (case_decide; [done|]); apply lookup_empty.
Qed.

(** X6: the encoded map has entries only under the eight keys host,
    port, from, fromDisplayName, starttls, auth, user and password. *)
Theorem convertSmtpConfig_keys (smtp : SmtpServerConfig.t) (k : string) (v : string) :
  convertSmtpConfig (Some smtp) !! k = Some v -> k ∈ smtp_keys.
Proof.
  intros Hk. destruct (decide (k ∈ smtp_keys)) as [|Hn]; [done|].
  by rewrite (convertSmtpConfig_lookup_other smtp k Hn) in Hk.
Qed.

(** X7: unless [Auth] is set and true, neither the username nor the
    password is put in the encoded map, even when they are set. *)
Theorem convertSmtpConfig_withholds_credentials (smtp : SmtpServerConfig.t) :
  SmtpServerConfig.Auth smtp <> Some true ->
  convertSmtpConfig (Some smtp) !! "user" = None /\
  convertSmtpConfig (Some smtp) !! "password" = None.
Proof.
  intros Hauth.
  destruct (convertSmtpConfig_lookups smtp) as (_ & _ & _ & _ & _ & _ & Hu & Hp).
  cbv zeta in *. rewrite Hu, Hp. unfold auth_on.
  by destruct (SmtpServerConfig.Auth smtp) as [[|]|].
Qed.

(** X8: decoding gives nil exactly for the empty map. *)
Theorem convertFromKeycloakSmtp_nil_iff_empty (a : IntSize) (keycloakSmtp : gmap string string) :
  convertFromKeycloakSmtp a keycloakSmtp = None <-> keycloakSmtp = ∅.
Proof.
  split.
  - intros Hnone. destruct (decide (size keycloakSmtp = 0%nat)) as [Hz|Hnz].
    + by apply map_size_empty_iff.
    + by rewrite (convertFromKeycloakSmtp_lookups a _ Hnz) in Hnone.
  - intros ->. reflexivity.
Qed.

(** X9: an entry under any other key does not change what a non-empty
    map decodes to. *)
Theorem convertFromKeycloakSmtp_ignores_other_keys (a : IntSize)
    (keycloakSmtp : gmap string string) (k v : string) :
  k ∉ smtp_keys -> keycloakSmtp <> ∅ ->
  convertFromKeycloakSmtp a (<[k := v]> keycloakSmtp) =
    convertFromKeycloakSmtp a keycloakSmtp.
Proof.
  intros Hk Hne. apply not_in_smtp_keys in Hk as (? & ? & ? & ? & ? & ? & ? & ?).
  assert (Hs1 : size keycloakSmtp <> 0%nat) by (by rewrite map_size_empty_iff).
  assert (Hs2 : size (<[k := v]> keycloakSmtp) <> 0%nat).
  { rewrite map_size_empty_iff. apply insert_non_empty. }
  rewrite (convertFromKeycloakSmtp_lookups a _ Hs1), (convertFromKeycloakSmtp_lookups a _ Hs2).
  by rewrite !lookup_insert_ne by done.
Qed.

(** X10: the decoder turns credentials on only for the exact string
    ["true"]: when the ["auth"] entry is missing or is any other string,
    the decoded username and password are unset, whatever the map holds
    under ["user"] and ["password"]. *)
Theorem convertFromKeycloakSmtp_gates_credentials (a : IntSize)
    (keycloakSmtp : gmap string string) (smtp : SmtpServerConfig.t) :
  keycloakSmtp !! "auth" <> Some "true" ->
  convertFromKeycloakSmtp a keycloakSmtp = Some smtp ->
  SmtpServerConfig.Auth smtp <> Some true /\
  SmtpServerConfig.Username smtp = None /\
  SmtpServerConfig.Password smtp = None.
Proof.
  intros Hauth Hdec.
  assert (Hs : size keycloakSmtp <> 0%nat).
  { intros Hz. apply map_size_empty_iff in Hz. by subst. }
  rewrite (convertFromKeycloakSmtp_lookups a _ Hs) in Hdec.
  injection Hdec as <-. simpl.
  destruct (keycloakSmtp !! "auth") as [v|]; simpl; [|done].
  case_bool_decide; [by subst|done].
Qed.

(** X11: what is read back encodes to the same map: for a configuration
    whose port, when set, is a non-negative [int], the configuration
    decoded from its encoding has that same encoding. *)
Theorem convertSmtpConfig_stable_under_read_back (a : IntSize) (smtp decoded : SmtpServerConfig.t) :
  (forall port, SmtpServerConfig.Port smtp = Some port ->
                0 <= port /\ in_int_range a port) ->
  convertFromKeycloakSmtp a (convertSmtpConfig (Some smtp)) = Some decoded ->
  convertSmtpConfig (Some decoded) = convertSmtpConfig (Some smtp).
Proof.
  intros Hport Hdec.
  rewrite (convertFromKeycloakSmtp_lookups a _ (convertSmtpConfig_nonempty smtp)) in Hdec.
  destruct (convertSmtpConfig_lookups smtp) as (Hh & Hp & Hf & Hfn & Hst & Hau & Hu & Hpw).
  cbv zeta in *. rewrite Hh, Hp, Hf, Hfn, Hst, Hau, Hu, Hpw in Hdec.
  injection Hdec as <-.
  apply map_eq. intros k.
  destruct (decide (k ∈ smtp_keys)) as [Hk|Hk];
    [|by rewrite !convertSmtpConfig_lookup_other].
  match goal with |- convertSmtpConfig (Some ?d) !! _ = _ =>
    destruct (convertSmtpConfig_lookups d) as (Hh' & Hp' & Hf' & Hfn' & Hst' & Hau' & Hu' & Hpw')
  end.
  cbv zeta in *. unfold auth_on in *. simpl in *.
  apply in_smtp_keys in Hk as [->|[->|[->|[->|[->|[->|[->| ->]]]]]]].
  - by rewrite Hh', Hh.
  - rewrite Hp', Hp. clear -Hport.
    destruct (SmtpServerConfig.Port smtp) as [port|]; [|done]. simpl.
    destruct (Hport port eq_refl). by rewrite parseInt_Sprintf_d.
  - by rewrite Hf', Hf.
  - by rewrite Hfn', Hfn.
  - rewrite Hst', Hst. clear. by destruct (SmtpServerConfig.StartTls smtp) as [[|]|].
  - rewrite Hau', Hau. clear. by destruct (SmtpServerConfig.Auth smtp) as [[|]|].
  - rewrite Hu', Hu. clear. by destruct (SmtpServerConfig.Auth smtp) as [[|]|].
  - rewrite Hpw', Hpw. clear. by destruct (SmtpServerConfig.Auth smtp) as [[|]|].
Qed.

(** ** [parseInt] on printed and on short numbers *)

(** X12: reading back a printed [int] gives the number when it is not
    negative and nil when it is. *)
Theorem parseInt_Sprintf_d_sign (a : IntSize) (n : Z) :
  in_int_range a n ->
  parseInt a (Sprintf_d n) = if (0 <=? n)%Z then Some n else None.
Proof.
  intros Hr. destruct (Z.leb_spec 0 n).
  - by apply parseInt_Sprintf_d.
  - by apply parseInt_Sprintf_d_neg.
Qed.

Lemma decimal_from_bounds (s : string) (acc : Z) :
  all_digits s = true -> 0 <= acc ->
  0 <= decimal_from s acc < (acc + 1) * 10 ^ Z.of_nat (String.length s).
Proof.
  revert acc. induction s as [|c rest IH]; intros acc Hs Hacc; simpl in *.
  - lia.
  - apply andb_prop in Hs as [Hc Hrest].
    unfold is_digit in Hc. apply andb_prop in Hc as [Hlo Hhi].
    apply Z.leb_le in Hlo, Hhi.
    specialize (IH (acc * 10 + (char_code c - char_0)) Hrest ltac:(lia)).
    rewrite Nat2Z.inj_succ, Z.pow_succ_r by lia.
    unfold char_0, char_9 in *.
    assert (0 < 10 ^ Z.of_nat (String.length rest)) by (apply Z.pow_pos_nonneg; lia).
    nia.
Qed.

(** X13: a non-empty digit string of at most 9 digits (32-bit [int]) or
    18 digits (64-bit [int]) parses to exactly its decimal value, which is
    not negative. *)
Theorem parseInt_exact_on_short_strings (a : IntSize) (s : string) :
  s <> "" -> all_digits s = true -> (String.length s <= exact_digits a)%nat ->
  parseInt a s = Some (decimal_value s) /\ 0 <= decimal_value s.
Proof.
  intros Hne Hs Hlen.
  pose proof (decimal_from_bounds s 0 Hs ltac:(lia)) as Hb.
  fold (decimal_value s) in Hb. split; [|lia].
  rewrite parseInt_digits by done. f_equal. apply int_wrap_id.
  unfold in_int_range.
  assert (10 ^ Z.of_nat (String.length s) <= 10 ^ Z.of_nat (exact_digits a))
    by (apply Z.pow_le_mono_r; lia).
  destruct a; simpl in *; lia.
Qed.

(** ** Reasoning about all runs *)

Lemma all_calls_bind {V A B} (P : call V -> Prop) (m : M V A) (f : A -> M V B) :
  all_calls P m -> (forall x, all_calls P (f x)) -> all_calls P (bind m f).
Proof.
  intros Hm Hf. induction m as [x|msg|c k IH]; simpl in *; [done|done|].
  destruct Hm as [Hc Hk]. split; [done|]. intros r. by apply IH.
Qed.

Lemma all_calls_run {V S A} (P : call V -> Prop) (m : M V A)
    (remote : forall c : call V, S -> reply c * S) (s : S) :
  all_calls P m -> Forall P (calls_of (run remote m s)).
Proof.
  unfold calls_of. revert s.
  induction m as [x|msg|c k IH]; intros s Hm; simpl in *; [constructor|constructor|].
  destruct Hm as [Hc Hk]. destruct (remote c s) as [r s1].
  specialize (IH r s1 (Hk r)).
  destruct (run remote (k r) s1) as [[o calls] s2]. simpl in *. by constructor.
Qed.

Lemma never_panics_bind {V A B} (m : M V A) (f : A -> M V B) :
  never_panics m -> (forall x, never_panics (f x)) -> never_panics (bind m f).
Proof.
  intros Hm Hf. induction m as [x|msg|c k IH]; simpl in *; [done|done|].
  intros r. by apply IH.
Qed.

Lemma never_panics_run {V S A} (m : M V A)
    (remote : forall c : call V, S -> reply c * S) (s : S) :
  never_panics m -> exists x, outcome_of (run remote m s) = Returned x.
Proof.
  unfold outcome_of. revert s.
  induction m as [x|msg|c k IH]; intros s Hm; simpl in *; [by eexists|done|].
  destruct (remote c s) as [r s1]. specialize (IH r s1 (Hm r)).
  destruct (run remote (k r) s1) as [[o calls] s2]. done.
Qed.

Lemma always_returns_bind {V A B} (Q : B -> Prop) (m : M V A) (f : A -> M V B) :
  always_returns (fun x => always_returns Q (f x)) m -> always_returns Q (bind m f).
Proof.
  intros Hm. induction m as [x|msg|c k IH]; simpl in *; [done|done|].
  intros r. by apply IH.
Qed.

Lemma always_returns_run {V S A} (Q : A -> Prop) (m : M V A)
    (remote : forall c : call V, S -> reply c * S) (s : S) (x : A) :
  always_returns Q m -> outcome_of (run remote m s) = Returned x -> Q x.
Proof.
  unfold outcome_of. revert s.
  induction m as [y|msg|c k IH]; intros s Hm Hrun; simpl in *.
  - by injection Hrun as <-.
  - discriminate.
  - destruct (remote c s) as [r s1]. specialize (IH r s1 (Hm r)).
    destruct (run remote (k r) s1) as [[o calls] s2]. by apply IH.
Qed.

Lemma writes_at_most_mono {V A} (n n' : nat) (m : M V A) :
  (n <= n')%nat -> writes_at_most n m -> writes_at_most n' m.
Proof.
  revert n n'. induction m as [x|msg|c k IH]; intros n n' Hle Hm; simpl in *; [done|done|].
  destruct (is_write c).
  - destruct n as [|n]; [done|]. destruct n' as [|n']; [lia|].
    intros r. apply (IH r n n'); [lia|done].
  - intros r. by apply (IH r n n').
Qed.

Lemma writes_at_most_bind {V A B} (n k : nat) (m : M V A) (f : A -> M V B) :
  writes_at_most n m -> (forall x, writes_at_most k (f x)) ->
  writes_at_most (n + k) (bind m f).
Proof.
  revert n. induction m as [x|msg|c g IH]; intros n Hm Hf; simpl in *.
  - apply (writes_at_most_mono k); [lia|done].
  - done.
  - destruct (is_write c).
    + destruct n as [|n]; [done|]. simpl. intros r. by apply IH.
    + intros r. by apply IH.
Qed.

Lemma writes_at_most_run {V S A} (n : nat) (m : M V A)
    (remote : forall c : call V, S -> reply c * S) (s : S) :
  writes_at_most n m -> (count_writes (calls_of (run remote m s)) <= n)%nat.
Proof.
  unfold calls_of, count_writes. revert n s.
  induction m as [x|msg|c k IH]; intros n s Hm; simpl in *; [lia|lia|].
  destruct (remote c s) as [r s1].
  destruct (run remote (k r) s1) as [[o calls] s2] eqn:Hrun. simpl.
  destruct (is_write c) eqn:Hw.
  - destruct n as [|n]; [done|].
    specialize (IH r n s1 (Hm r)). rewrite Hrun in IH. simpl in IH.
    rewrite filter_cons_True by done. simpl. lia.
  - specialize (IH r n s1 (Hm r)). rewrite Hrun in IH. simpl in IH.
    rewrite filter_cons_False by (by rewrite Hw). done.
Qed.

(** Walks every path of a computation written out as a tree of calls. *)
Ltac all_paths :=
  unfold mbind, M_bind, mret, M_ret, perform, deref;
  repeat first
    [ progress simpl
    | progress intros
    | split
    | done
    | match goal with
      | |- context [match ?x with _ => _ end] => destruct x
      | |- context [if ?x then _ else _] => destruct x
      end ].

Section AllRuns.
Context {V : Type}.
Variable a : IntSize.

Lemma realmExists_all_calls (ctx : Ctx) (client : GoCloak) (realmName : string) :
  all_calls (V := V) (fun c => is_write c = false) (realmExists ctx client realmName).
Proof. unfold realmExists, getProviderConfig. all_paths. Qed.

Lemma readRealmState_all_calls (client : GoCloak) (token realmName : string) :
  all_calls (V := V) (fun c => is_write c = false)
    (readRealmState a client token realmName).
Proof. unfold readRealmState. all_paths. Qed.

Lemma updateManagedFields_all_calls (client : GoCloak) (token : string) (args : RealmArgs.t) :
  all_calls (V := V) (fun c => is_create c = false /\ is_delete c = false)
    (updateManagedFields client token args).
Proof. unfold updateManagedFields. all_paths. Qed.

(** X14: whatever the remote system replies, [Update] never calls
    [CreateRealm] or [DeleteRealm] and makes at most one writing call. *)
Theorem Update_call_discipline {S} (remote : forall c : call V, S -> reply c * S)
    (ctx : Ctx) (req : UpdateRequest) (s : S) :
  Forall (fun c => is_create c = false /\ is_delete c = false)
    (calls_of (run remote (Update a ctx req) s)) /\
  (count_writes (calls_of (run remote (Update a ctx req) s)) <= 1)%nat.
Proof.
  split.
  - apply all_calls_run.
    unfold Update, updateManagedFields, readRealmState, getProviderConfig, getKeycloakClient.
    all_paths.
  - apply writes_at_most_run.
    unfold Update, updateManagedFields, readRealmState, getProviderConfig, getKeycloakClient.
    all_paths.
Qed.

(** X15: whatever the remote system replies, [Delete] never calls
    [CreateRealm] or [UpdateRealm] and makes at most one writing call. *)
Theorem Delete_call_discipline {S} (remote : forall c : call V, S -> reply c * S)
    (ctx : Ctx) (req : DeleteRequest) (s : S) :
  Forall (fun c => is_create c = false /\ is_update c = false)
    (calls_of (run remote (Delete ctx req) s)) /\
  (count_writes (calls_of (run remote (Delete ctx req) s)) <= 1)%nat.
Proof.
  split.
  - apply all_calls_run.
    unfold Delete, realmExists, getProviderConfig, getKeycloakClient. all_paths.
  - apply writes_at_most_run.
    unfold Delete, realmExists, getProviderConfig, getKeycloakClient. all_paths.
Qed.

(** X16: whatever the remote system replies, [Create] never calls
    [DeleteRealm] and makes at most two writing calls. *)
Theorem Create_call_discipline {S} (remote : forall c : call V, S -> reply c * S)
    (ctx : Ctx) (req : CreateRequest) (s : S) :
  Forall (fun c => is_delete c = false) (calls_of (run remote (Create a ctx req) s)) /\
  (count_writes (calls_of (run remote (Create a ctx req) s)) <= 2)%nat.
Proof.
  split.
  - apply all_calls_run.
    unfold Create, realmExists, updateManagedFields, readRealmState,
      getProviderConfig, getKeycloakClient.
    all_paths.
  - apply writes_at_most_run.
    unfold Create, realmExists, updateManagedFields, readRealmState,
      getProviderConfig, getKeycloakClient.
    all_paths.
Qed.

(** X17: whatever the remote system replies, [Read] makes no writing call. *)
Theorem Read_reads_only {S} (remote : forall c : call V, S -> reply c * S)
    (ctx : Ctx) (req : ReadRequest) (s : S) :
  Forall (fun c => is_write c = false) (calls_of (run remote (Read a ctx req) s)).
Proof.
  apply all_calls_run.
  unfold Read, realmExists, readRealmState, getProviderConfig, getKeycloakClient.
  all_paths.
Qed.

(** X18: every state a lifecycle operation reports has its [ID] equal to
    its [Name], whatever the remote system replies. *)
Theorem reported_ID_is_Name {S} (remote : forall c : call V, S -> reply c * S)
    (ctx : Ctx) (s : S) :
  (forall req resp,
      outcome_of (run remote (Create a ctx req) s) = Returned (Ok resp) ->
      RealmState.ID (create_Output resp) = RealmState.Name (create_Output resp)) /\
  (forall req resp,
      outcome_of (run remote (Update a ctx req) s) = Returned (Ok resp) ->
      RealmState.ID (update_Output resp) = RealmState.Name (update_Output resp)) /\
  (forall req resp,
      outcome_of (run remote (Read a ctx req) s) = Returned (Ok resp) ->
      RealmState.ID (response_State resp) = RealmState.Name (response_State resp)).
Proof.
  split; [|split]; intros req resp Hrun.
  - refine (always_returns_run
             (fun r => match r with
                       | inl resp => RealmState.ID (create_Output resp) =
                                     RealmState.Name (create_Output resp)
                       | inr _ => True
                       end) (Create a ctx req) remote s (Ok resp) _ Hrun).
    unfold Create, realmExists, updateManagedFields, readRealmState,
      getProviderConfig, getKeycloakClient.
    all_paths.
  - refine (always_returns_run
             (fun r => match r with
                       | inl resp => RealmState.ID (update_Output resp) =
                                     RealmState.Name (update_Output resp)
                       | inr _ => True
                       end) (Update a ctx req) remote s (Ok resp) _ Hrun).
    unfold Update, updateManagedFields, readRealmState, getProviderConfig, getKeycloakClient.
    all_paths.
  - refine (always_returns_run
             (fun r => match r with
                       | inl resp => RealmState.ID (response_State resp) =
                                     RealmState.Name (response_State resp)
                       | inr _ => True
                       end) (Read a ctx req) remote s (Ok resp) _ Hrun).
    unfold Read, realmExists, readRealmState, getProviderConfig, getKeycloakClient.
    all_paths.
Qed.

(** X19: every response [Create] returns carries the desired name as its
    identifier, in both copies of the resource. *)
Theorem Create_ID_is_desired_name {S} (remote : forall c : call V, S -> reply c * S)
    (ctx : Ctx) (config : ProviderConfig) (req : CreateRequest) (s : S) :
  (forall resp,
      outcome_of (run remote (Create a ctx req) s) = Returned (Ok resp) ->
      create_ID resp = RealmArgs.Name (create_Inputs req)) /\
  (forall resp,
      outcome_of (run remote (OneStep.Create a config req) s) = Returned (Ok resp) ->
      create_ID resp = RealmArgs.Name (create_Inputs req)).
Proof.
  split; intros resp Hrun.
  - refine (always_returns_run
             (fun r => match r with
                       | inl resp => create_ID resp = RealmArgs.Name (create_Inputs req)
                       | inr _ => True
                       end) (Create a ctx req) remote s (Ok resp) _ Hrun).
    unfold Create, realmExists, updateManagedFields, readRealmState,
      getProviderConfig, getKeycloakClient.
    all_paths.
  - refine (always_returns_run
             (fun r => match r with
                       | inl resp => create_ID resp = RealmArgs.Name (create_Inputs req)
                       | inr _ => True
                       end) (OneStep.Create a config req) remote s (Ok resp) _ Hrun).
    unfold OneStep.Create, readRealmState. all_paths.
Qed.

(** X20: with the provider configuration (its admin realm set) and the
    client in the context, [Delete] and the dry runs of [Create] and
    [Update] return, whatever the remote system replies: they never panic. *)
Theorem Delete_and_dry_runs_never_panic {S} (remote : forall c : call V, S -> reply c * S)
    (ctx : Ctx) (config : ProviderConfig) (realm : string) (client : GoCloak) (s : S) :
  ctx_config ctx = Some config -> Realm config = Some realm ->
  ctx_client ctx = Some client ->
  (forall req, exists r, outcome_of (run remote (Delete ctx req) s) = Returned r) /\
  (forall inputs, exists r,
      outcome_of (run remote
                    (Create a ctx {| create_Inputs := inputs; create_DryRun := true |}) s) =
        Returned r) /\
  (forall inputs, exists r,
      outcome_of (run remote
                    (Update a ctx {| update_Inputs := inputs; update_DryRun := true |}) s) =
        Returned r).
Proof.
  intros Hcfg Hrealm Hclient. split; [|split]; intros x; apply never_panics_run.
  - unfold Delete, realmExists, getProviderConfig, getKeycloakClient.
    rewrite Hcfg, Hclient. simpl. rewrite Hrealm. all_paths.
  - unfold Create, realmExists, getProviderConfig, getKeycloakClient.
    rewrite Hcfg, Hclient. simpl. rewrite Hrealm. all_paths.
  - unfold Update, getProviderConfig, getKeycloakClient.
    rewrite Hcfg, Hclient. simpl. rewrite Hrealm. all_paths.
Qed.
End AllRuns.

(** ** Single paths of the lifecycle *)

Section Paths.
Context {V S : Type}.
Variable a : IntSize.
Variable remote : forall c : call V, S -> reply c * S.

(** With the realm fetched and named, [readRealmState] makes that one call
    and returns the projection of the fetched realm. *)
Lemma run_readRealmState (client : GoCloak) (token realmName name : string)
    (realm : RealmRepresentation.t V) (s s1 : S) :
  remote (GetRealm token realmName) s = (Ok realm, s1) ->
  RealmRepresentation.Realm realm = Some name ->
  run remote (readRealmState a client token realmName) s =
    (Returned (Ok (projection a name realm)), [GetRealm token realmName], s1).
Proof.
  intros Hget Hname.
  unfold readRealmState, mbind, M_bind, perform. simpl. rewrite Hget.
  destruct realm as [r e dn dh lt act adt et sm u]. simpl in *. subst r. simpl.
  unfold projection. simpl.
  by destruct e, dn, dh, lt, act, adt, et, sm.
Qed.

(** X5: with the realm fetched and named, [readRealmState] makes that one
    call and reports the remote values of the managed fields as they are,
    unset ones unset and no default put in, with the SMTP map decoded (an
    empty map as no SMTP configuration). *)
Theorem readRealmState_projects (client : GoCloak) (token realmName name : string)
    (realm : RealmRepresentation.t V) (s s1 : S) :
  remote (GetRealm token realmName) s = (Ok realm, s1) ->
  RealmRepresentation.Realm realm = Some name ->
  run remote (readRealmState a client token realmName) s =
    (Returned
       (Ok (RealmState.mk name name
              (RealmRepresentation.Enabled realm) (RealmRepresentation.DisplayName realm)
              (RealmRepresentation.DisplayNameHTML realm)
              (RealmRepresentation.LoginTheme realm)
              (RealmRepresentation.AccountTheme realm)
              (RealmRepresentation.AdminTheme realm)
              (RealmRepresentation.EmailTheme realm)
              match RealmRepresentation.SMTPServer realm with
              | Some keycloakSmtp => convertFromKeycloakSmtp a keycloakSmtp
              | None => None
              end)),
     [GetRealm token realmName], s1).
Proof.
  intros Hget Hname. rewrite (run_readRealmState _ _ _ _ _ _ _ Hget Hname).
  unfold projection. by destruct (RealmRepresentation.SMTPServer realm).
Qed.

(** X21: after a successful login, [realmExists] fetches the realm once;
    it reports the realm absent without an error exactly when the fetch
    fails with the message ["404"] or ["realm not found"], reports it
    present when the fetch succeeds, and returns any other fetch error
    itself, unwrapped. *)
Theorem realmExists_by_error_text (ctx : Ctx) (config : ProviderConfig) (realm : string)
    (client : GoCloak) (realmName : string) (token : JWT)
    (r : result (RealmRepresentation.t V)) (s s1 s2 : S) :
  ctx_config ctx = Some config -> Realm config = Some realm ->
  remote (LoginAdmin (Username config) (Password config) realm) s = (Ok token, s1) ->
  remote (GetRealm (AccessToken token) realmName) s1 = (r, s2) ->
  run remote (realmExists ctx client realmName) s =
    (Returned
       match r with
       | inl _ => (true, None)
       | inr err =>
           if decide (Error err = "404" \/ Error err = "realm not found")
           then (false, None) else (false, Some err)
       end,
     [LoginAdmin (Username config) (Password config) realm;
      GetRealm (AccessToken token) realmName], s2).
Proof.
  intros Hcfg Hrealm Hlogin Hget.
  unfold realmExists, getProviderConfig, mbind, M_bind, perform.
  rewrite Hcfg. simpl. rewrite Hrealm. simpl. rewrite Hlogin. simpl. rewrite Hget.
  destruct r as [found|err]; simpl; [done|].
  destruct (decide (Error err = "404" \/ Error err = "realm not found")) as [[He|He]|Hn].
  - by rewrite bool_decide_eq_true_2.
  - rewrite (bool_decide_eq_true_2 (Error err = "realm not found")) by done.
    by rewrite orb_true_r.
  - rewrite !bool_decide_eq_false_2 by tauto. done.
Qed.

(** X22: when the login fails, each of [Create], [Update], [Delete] and
    [Read] stops after that one call and returns the login error wrapped
    with the prefix "failed to authenticate: ". *)
Theorem login_failure_stops_operation (ctx : Ctx) (config : ProviderConfig)
    (realm : string) (client : GoCloak) (err : error) (s s1 : S) :
  ctx_config ctx = Some config -> Realm config = Some realm ->
  ctx_client ctx = Some client ->
  remote (LoginAdmin (Username config) (Password config) realm) s = (Err err, s1) ->
  (forall req, run remote (Create a ctx req) s =
     (Returned (Err (Errorf "failed to authenticate: " err)),
      [LoginAdmin (Username config) (Password config) realm], s1)) /\
  (forall req, run remote (Update a ctx req) s =
     (Returned (Err (Errorf "failed to authenticate: " err)),
      [LoginAdmin (Username config) (Password config) realm], s1)) /\
  (forall req, run remote (Delete ctx req) s =
     (Returned (Err (Errorf "failed to authenticate: " err)),
      [LoginAdmin (Username config) (Password config) realm], s1)) /\
  (forall req, run remote (Read a ctx req) s =
     (Returned (Err (Errorf "failed to authenticate: " err)),
      [LoginAdmin (Username config) (Password config) realm], s1)).
Proof.
  intros Hcfg Hrealm Hclient Hlogin.
  repeat split; intros req;
    unfold Create, Update, Delete, Read, getProviderConfig, getKeycloakClient,
      mbind, M_bind, perform;
    rewrite Hcfg, Hclient; simpl; rewrite Hrealm; simpl; by rewrite Hlogin.
Qed.

Opaque updateManagedFields readRealmState realmExists.

(** X24: a real [Update] reports what the realm holds after the write,
    not the inputs: with the login, the fetch and the update successful,
    the calls are login, fetch, update, fetch, and the reported state is
    the projection of the realm the second fetch returns. *)
Theorem Update_reads_after_write (ctx : Ctx) (inputs : RealmArgs.t)
    (config : ProviderConfig) (realm : string) (client : GoCloak) (token : JWT)
    (name : string) (currentRealm written : RealmRepresentation.t V) (s s1 s2 s3 s4 : S) :
  ctx_config ctx = Some config -> Realm config = Some realm ->
  ctx_client ctx = Some client ->
  remote (LoginAdmin (Username config) (Password config) realm) s = (Ok token, s1) ->
  remote (GetRealm (AccessToken token) (RealmArgs.Name inputs)) s1 = (Ok currentRealm, s2) ->
  remote (UpdateRealm (AccessToken token) (updateRealm inputs currentRealm)) s2 = (None, s3) ->
  remote (GetRealm (AccessToken token) (RealmArgs.Name inputs)) s3 = (Ok written, s4) ->
  RealmRepresentation.Realm written = Some name ->
  run remote (Update a ctx {| update_Inputs := inputs; update_DryRun := false |}) s =
    (Returned (Ok {| update_Output := projection a name written |}),
     [LoginAdmin (Username config) (Password config) realm;
      GetRealm (AccessToken token) (RealmArgs.Name inputs);
      UpdateRealm (AccessToken token) (updateRealm inputs currentRealm);
      GetRealm (AccessToken token) (RealmArgs.Name inputs)], s4).
Proof.
  intros Hcfg Hrealm Hclient Hlogin Hget Hupdate Hget' Hname.
  unfold Update, getProviderConfig, getKeycloakClient, mbind, M_bind, perform.
  rewrite Hcfg, Hclient. simpl. rewrite Hrealm. simpl. rewrite Hlogin. simpl.
  rewrite run_bind, (run_updateManagedFields remote _ _ _ _ _ _ Hget), Hupdate. simpl.
  rewrite run_bind. unfold result in *.
  by rewrite (run_readRealmState _ _ _ _ _ _ _ Hget' Hname).
Qed.

(** X25: when the existence check reports the realm absent, [Read] makes
    no further call and returns the empty response without an error. *)
Theorem Read_absent_realm (ctx : Ctx) (req : ReadRequest)
    (config : ProviderConfig) (realm : string) (client : GoCloak) (token : JWT)
    (calls : list (call V)) (s s1 s2 : S) :
  ctx_config ctx = Some config -> Realm config = Some realm ->
  ctx_client ctx = Some client ->
  remote (LoginAdmin (Username config) (Password config) realm) s = (Ok token, s1) ->
  run remote (realmExists ctx client (read_ID req)) s1 = (Returned (false, None), calls, s2) ->
  run remote (Read a ctx req) s =
    (Returned (Ok ReadResponse_zero),
     LoginAdmin (Username config) (Password config) realm :: calls, s2).
Proof.
  intros Hcfg Hrealm Hclient Hlogin Hex.
  unfold Read, getProviderConfig, getKeycloakClient, mbind, M_bind, perform.
  rewrite Hcfg, Hclient. simpl. rewrite Hrealm. simpl. rewrite Hlogin. simpl.
  rewrite run_bind, Hex. simpl. by rewrite app_nil_r.
Qed.

(** X26: when the existence check reports the realm present and
    [readRealmState] returns a state, [Read] returns the requested
    identifier and the request's inputs unchanged, with that state. *)
Theorem Read_present_realm (ctx : Ctx) (req : ReadRequest)
    (config : ProviderConfig) (realm : string) (client : GoCloak) (token : JWT)
    (state : RealmState.t) (calls calls' : list (call V)) (s s1 s2 s3 : S) :
  ctx_config ctx = Some config -> Realm config = Some realm ->
  ctx_client ctx = Some client ->
  remote (LoginAdmin (Username config) (Password config) realm) s = (Ok token, s1) ->
  run remote (realmExists ctx client (read_ID req)) s1 = (Returned (true, None), calls, s2) ->
  run remote (readRealmState a client (AccessToken token) (read_ID req)) s2 =
    (Returned (Ok state), calls', s3) ->
  run remote (Read a ctx req) s =
    (Returned (Ok {| response_ID := read_ID req; response_Inputs := read_Inputs req;
                     response_State := state |}),
     LoginAdmin (Username config) (Password config) realm :: calls ++ calls', s3).
Proof.
  intros Hcfg Hrealm Hclient Hlogin Hex Hread.
  unfold Read, getProviderConfig, getKeycloakClient, mbind, M_bind, perform.
  rewrite Hcfg, Hclient. simpl. rewrite Hrealm. simpl. rewrite Hlogin. simpl.
  rewrite run_bind, Hex. simpl. rewrite run_bind.
  unfold result in *. rewrite Hread. simpl.
  by rewrite app_nil_r.
Qed.

Transparent updateManagedFields readRealmState realmExists.
End Paths.

(** ** Configuring the provider *)

Section Configuring.
Context {V S : Type}.
Variable a : IntSize.
Variable remote : forall c : call V, S -> reply c * S.

(** X27: with an empty URL, username or password, [Configure] makes no
    call, leaves the provider as it was and returns an error. *)
Theorem Configure_rejects_missing_field (p : KeycloakProvider) (config : ProviderConfig)
    (s : S) :
  URL config = "" \/ Username config = "" \/ Password config = "" ->
  exists msg,
    run remote (Configure p config) s = (Returned (p, Some (errorString msg)), [], s).
Proof.
  intros Hmissing. unfold Configure.
  destruct (decide (URL config = "")); [by eexists|].
  destruct (decide (Username config = "")); [by eexists|].
  destruct (decide (Password config = "")); [by eexists|].
  tauto.
Qed.

(** X28: with URL, username and password set, [Configure] logs in once,
    in the configured admin realm or in ["master"] when none is set, and
    stores the configuration with the defaults filled in even when the
    login fails; the client and the token are stored only when it
    succeeds. *)
Theorem Configure_logs_in_with_defaults (p : KeycloakProvider) (config : ProviderConfig)
    (r : result JWT) (s s1 : S) :
  URL config <> "" -> Username config <> "" -> Password config <> "" ->
  remote (LoginAdmin (Username config) (Password config)
            (default "master" (Realm config))) s = (r, s1) ->
  let stored :=
    {| URL := URL config; Username := Username config; Password := Password config;
       Realm := Some (default "master" (Realm config));
       BasePath := Some (default "/" (BasePath config));
       Insecure := Some (default false (Insecure config)) |} in
  run remote (Configure p config) s =
    (Returned
       match r with
       | inl token =>
           ({| kp_config := Some stored; kp_client := Some (NewClient (URL config));
               kp_token := Some token |}, None)
       | inr err =>
           ({| kp_config := Some stored; kp_client := kp_client p;
               kp_token := kp_token p |},
            Some (Errorf "failed to authenticate with Keycloak: " err))
       end,
     [LoginAdmin (Username config) (Password config) (default "master" (Realm config))],
     s1).
Proof.
  intros Hurl Huser Hpass Hlogin stored. subst stored. unfold Configure.
  destruct (decide (URL config = "")); [done|].
  destruct (decide (Username config = "")); [done|].
  destruct (decide (Password config = "")); [done|].
  destruct config as [url user pass [realm|] [base|] [insecure|]];
    unfold mbind, M_bind, perform; simpl in *; rewrite Hlogin; by destruct r.
Qed.

Lemma getEnvOrDefault_empty (env : gmap string string) (key : string) :
  getEnvOrDefault env key "" = Getenv env key.
Proof.
  unfold getEnvOrDefault. case_decide as Hv; [done|].
  by destruct (decide (Getenv env key = "")).
Qed.

(** The configuration read from the environment, field by field. *)
Lemma GetProviderConfigFromEnv_fields (env : gmap string string) :
  GetProviderConfigFromEnv env =
    {| URL := Getenv env "KEYCLOAK_URL";
       Username := Getenv env "KEYCLOAK_USERNAME";
       Password := Getenv env "KEYCLOAK_PASSWORD";
       Realm := if decide (Getenv env "KEYCLOAK_REALM" = "") then None
                else Some (Getenv env "KEYCLOAK_REALM");
       BasePath := if decide (Getenv env "KEYCLOAK_BASE_PATH" = "") then None
                   else Some (Getenv env "KEYCLOAK_BASE_PATH");
       Insecure := None |}.
Proof.
  unfold GetProviderConfigFromEnv. rewrite !getEnvOrDefault_empty.
  generalize (Getenv env "KEYCLOAK_REALM") (Getenv env "KEYCLOAK_BASE_PATH").
  intros realm base.
  destruct (decide (realm = "")), (decide (base = ""));
    repeat case_decide; done.
Qed.

(** X29: an environment variable set to the empty string gives the same
    configuration as the variable not being set. *)
Theorem GetProviderConfigFromEnv_empty_is_unset (env : gmap string string) (key : string) :
  GetProviderConfigFromEnv (<[key := ""]> env) = GetProviderConfigFromEnv (delete key env).
Proof.
  assert (Hget : forall k, Getenv (<[key := ""]> env) k = Getenv (delete key env) k).
  { intros k. unfold Getenv. destruct (decide (key = k)) as [->|Hne].
    - by rewrite lookup_insert_eq, lookup_delete_eq.
    - by rewrite lookup_insert_ne, lookup_delete_ne. }
  rewrite !GetProviderConfigFromEnv_fields. by rewrite !Hget.
Qed.

(** The calls of [Configure]: none, or one login. *)
Lemma Configure_calls (p : KeycloakProvider) (config : ProviderConfig) (s : S) :
  calls_of (run remote (Configure p config) s) =
    if decide (URL config = "" \/ Username config = "" \/ Password config = "")
    then []
    else [LoginAdmin (Username config) (Password config)
            (default "master" (Realm config))].
Proof.
  unfold Configure, calls_of.
  destruct (decide (URL config = "")); [by rewrite decide_True by tauto|].
  destruct (decide (Username config = "")); [by rewrite decide_True by tauto|].
  destruct (decide (Password config = "")); [by rewrite decide_True by tauto|].
  rewrite decide_False by tauto.
  destruct config as [url user pass [realm|] [base|] [insecure|]];
    unfold mbind, M_bind, perform; simpl;
    match goal with
    | |- context [remote ?c s] => by destruct (remote c s) as [[token|err] s1]
    end.
Qed.

(** X30: configured from the environment, the provider makes no call when
    [KEYCLOAK_URL], [KEYCLOAK_USERNAME] or [KEYCLOAK_PASSWORD] is unset or
    empty; otherwise its only call is the login with the username and
    password of the environment, in the realm [KEYCLOAK_REALM] or in
    ["master"] when that variable is unset or empty. *)
Theorem Configure_from_environment (p : KeycloakProvider) (env : gmap string string)
    (s : S) :
  calls_of (run remote (Configure p (GetProviderConfigFromEnv env)) s) =
    if decide (Getenv env "KEYCLOAK_URL" = "" \/ Getenv env "KEYCLOAK_USERNAME" = "" \/
               Getenv env "KEYCLOAK_PASSWORD" = "")
    then []
    else [LoginAdmin (Getenv env "KEYCLOAK_USERNAME") (Getenv env "KEYCLOAK_PASSWORD")
            (if decide (Getenv env "KEYCLOAK_REALM" = "") then "master"
             else Getenv env "KEYCLOAK_REALM")].
Proof.
  rewrite Configure_calls, GetProviderConfigFromEnv_fields. simpl.
  repeat case_decide; try tauto; done.
Qed.

(** X23: the dry runs of [Update] and of the one-step [Create] make
    exactly one call, the login, and when it succeeds return the desired
    input as the reported state. *)
Theorem dry_runs_log_in_only (ctx : Ctx) (inputs : RealmArgs.t)
    (config : ProviderConfig) (realm : string) (client : GoCloak) (token : JWT)
    (s s1 : S) :
  ctx_config ctx = Some config -> Realm config = Some realm ->
  ctx_client ctx = Some client ->
  remote (LoginAdmin (Username config) (Password config) realm) s = (Ok token, s1) ->
  let echoed :=
    RealmState.mk (RealmArgs.Name inputs) (RealmArgs.Name inputs)
      (RealmArgs.Enabled inputs) (RealmArgs.DisplayName inputs)
      (RealmArgs.DisplayNameHtml inputs) (RealmArgs.LoginTheme inputs)
      (RealmArgs.AccountTheme inputs) (RealmArgs.AdminTheme inputs)
      (RealmArgs.EmailTheme inputs) (RealmArgs.SmtpServer inputs) in
  run remote (Update a ctx {| update_Inputs := inputs; update_DryRun := true |}) s =
    (Returned (Ok {| update_Output := echoed |}),
     [LoginAdmin (Username config) (Password config) realm], s1) /\
  run remote (OneStep.Create a config
                {| create_Inputs := inputs; create_DryRun := true |}) s =
    (Returned (Ok {| create_ID := RealmArgs.Name inputs; create_Output := echoed |}),
     [LoginAdmin (Username config) (Password config) realm], s1).
Proof.
  intros Hcfg Hrealm Hclient Hlogin echoed. subst echoed. split.
  - unfold Update, getProviderConfig, getKeycloakClient, mbind, M_bind, perform.
    rewrite Hcfg, Hclient. simpl. rewrite Hrealm. simpl. by rewrite Hlogin.
  - unfold OneStep.Create, mbind, M_bind, perform.
    rewrite Hrealm. simpl. by rewrite Hlogin.
Qed.
End Configuring.

(** ** Concrete runs of the further properties *)

Lemma updateRealm_writes_desired_witness :
  ~ desired_absent FLoginTheme Sample.theme_only /\
  attribute "loginTheme" (updateRealm Sample.theme_only Sample.acme) =
    Some (AString "custom").
Proof.
  split; [discriminate|].
  apply (updateRealm_writes_desired FLoginTheme Sample.theme_only Sample.acme).
  discriminate.
Defined.

Lemma readRealmState_projects_witness :
  keycloak (GetRealm "token" "acme") Sample.with_acme = (Ok Sample.acme, Sample.with_acme) /\
  RealmRepresentation.Realm Sample.acme = Some "acme" /\
  run keycloak (readRealmState Int64 Sample.client "token" "acme") Sample.with_acme =
    (Returned (Ok Sample.acme_state), [GetRealm "token" "acme"], Sample.with_acme).
Proof.
  split; [reflexivity|]. split; [reflexivity|].
  apply (readRealmState_projects Int64 keycloak Sample.client "token" "acme" "acme"
           Sample.acme Sample.with_acme Sample.with_acme); reflexivity.
Defined.

Lemma convertSmtpConfig_keys_witness :
  convertSmtpConfig (Some Sample.smtp) !! "port" = Some "587" /\
  "port" ∈ smtp_keys.
Proof.
  split; [reflexivity|].
  apply (convertSmtpConfig_keys Sample.smtp "port" "587"). reflexivity.
Defined.

Lemma convertSmtpConfig_withholds_credentials_witness :
  SmtpServerConfig.Auth Cases.smtp_no_auth <> Some true /\
  SmtpServerConfig.Username Cases.smtp_no_auth = Some "mailer" /\
  convertSmtpConfig (Some Cases.smtp_no_auth) !! "user" = None /\
  convertSmtpConfig (Some Cases.smtp_no_auth) !! "password" = None.
Proof.
  split; [discriminate|]. split; [reflexivity|].
  apply (convertSmtpConfig_withholds_credentials Cases.smtp_no_auth). discriminate.
Defined.

Lemma convertFromKeycloakSmtp_nil_iff_empty_witness :
  convertFromKeycloakSmtp Int64 ∅ = None.
Proof. apply (proj2 (convertFromKeycloakSmtp_nil_iff_empty Int64 ∅)). reflexivity. Defined.

Lemma convertFromKeycloakSmtp_ignores_other_keys_witness :
  ("ssl" ∉ smtp_keys) /\
  Cases.smtp_map_host <> ∅ /\
  convertFromKeycloakSmtp Int64 (<["ssl" := "true"]> Cases.smtp_map_host) =
    convertFromKeycloakSmtp Int64 Cases.smtp_map_host.
Proof.
  assert (Hk : "ssl" ∉ smtp_keys) by (apply (bool_decide_unpack _); vm_compute; exact I).
  assert (Hne : Cases.smtp_map_host <> ∅).
  { intros He. apply (f_equal (fun m : gmap string string => m !! "host")) in He.
    discriminate He. }
  split; [exact Hk|]. split; [exact Hne|].
  apply (convertFromKeycloakSmtp_ignores_other_keys Int64 Cases.smtp_map_host "ssl" "true"
           Hk Hne).
Defined.

Lemma convertFromKeycloakSmtp_gates_credentials_witness :
  Cases.smtp_map_upper !! "auth" <> Some "true" /\
  Cases.smtp_map_upper !! "user" = Some "mailer" /\
  exists smtp,
    convertFromKeycloakSmtp Int64 Cases.smtp_map_upper = Some smtp /\
    SmtpServerConfig.Auth smtp <> Some true /\
    SmtpServerConfig.Username smtp = None /\
    SmtpServerConfig.Password smtp = None.
Proof.
  split; [discriminate|]. split; [reflexivity|].
  exists (SmtpServerConfig.mk None None None None None (Some false) None None).
  split; [reflexivity|].
  apply (convertFromKeycloakSmtp_gates_credentials Int64 Cases.smtp_map_upper);
    [discriminate|reflexivity].
Defined.

Lemma convertSmtpConfig_stable_under_read_back_witness :
  (forall port, SmtpServerConfig.Port Cases.smtp_no_auth = Some port ->
                0 <= port /\ in_int_range Int64 port) /\
  convertFromKeycloakSmtp Int64 (convertSmtpConfig (Some Cases.smtp_no_auth)) =
    Some Cases.smtp_no_auth_read /\
  convertSmtpConfig (Some Cases.smtp_no_auth_read) =
    convertSmtpConfig (Some Cases.smtp_no_auth).
Proof.
  assert (Hport : forall port, SmtpServerConfig.Port Cases.smtp_no_auth = Some port ->
                               0 <= port /\ in_int_range Int64 port).
  { intros port [= <-]. unfold in_int_range. simpl. lia. }
  split; [exact Hport|]. split; [reflexivity|].
  apply (convertSmtpConfig_stable_under_read_back Int64 Cases.smtp_no_auth
           Cases.smtp_no_auth_read Hport).
  reflexivity.
Defined.

Lemma parseInt_Sprintf_d_sign_witness :
  in_int_range Int64 587 /\ parseInt Int64 (Sprintf_d 587) = Some 587 /\
  in_int_range Int64 (-25) /\ parseInt Int64 (Sprintf_d (-25)) = None.
Proof.
  assert (H1 : in_int_range Int64 587) by (unfold in_int_range; simpl; lia).
  assert (H2 : in_int_range Int64 (-25)) by (unfold in_int_range; simpl; lia).
  split; [exact H1|]. split; [apply (parseInt_Sprintf_d_sign Int64 587 H1)|].
  split; [exact H2|]. apply (parseInt_Sprintf_d_sign Int64 (-25) H2).
Defined.

Lemma parseInt_exact_on_short_strings_witness :
  "00587" <> "" /\ all_digits "00587" = true /\
  (String.length "00587" <= exact_digits Int32)%nat /\
  parseInt Int32 "00587" = Some (decimal_value "00587") /\
  0 <= decimal_value "00587".
Proof.
  split; [discriminate|]. split; [reflexivity|]. split; [simpl; lia|].
  apply (parseInt_exact_on_short_strings Int32 "00587");
    [discriminate|reflexivity|simpl; lia].
Defined.

Lemma reported_ID_is_Name_witness :
  outcome_of (run keycloak
                (Update Int64 Sample.ctx
                   {| update_Inputs := Sample.theme_only; update_DryRun := false |})
                Sample.with_acme) =
    Returned (Ok {| update_Output := Cases.acme_themed_state |}) /\
  RealmState.ID Cases.acme_themed_state = RealmState.Name Cases.acme_themed_state.
Proof.
  split; [reflexivity|].
  apply (proj1 (proj2 (reported_ID_is_Name Int64 keycloak Sample.ctx Sample.with_acme))
           {| update_Inputs := Sample.theme_only; update_DryRun := false |}
           {| update_Output := Cases.acme_themed_state |}).
  reflexivity.
Defined.

Lemma Create_ID_is_desired_name_witness :
  exists resp,
    outcome_of (run keycloak
                  (Create Int64 Sample.ctx
                     {| create_Inputs := Sample.theme_only; create_DryRun := false |})
                  Sample.with_acme) = Returned (Ok resp) /\
    create_ID resp = "acme".
Proof.
  exists {| create_ID := "acme"; create_Output := Cases.acme_themed_state |}.
  split; [reflexivity|].
  apply (proj1 (Create_ID_is_desired_name Int64 keycloak Sample.ctx Sample.config
                  {| create_Inputs := Sample.theme_only; create_DryRun := false |}
                  Sample.with_acme)).
  reflexivity.
Defined.

Lemma Delete_and_dry_runs_never_panic_witness :
  ctx_config Sample.ctx = Some Sample.config /\
  Realm Sample.config = Some "master" /\
  ctx_client Sample.ctx = Some Sample.client /\
  exists r,
    outcome_of (run keycloak_no_delete
                  (Delete Sample.ctx {| delete_State := Sample.acme_state |})
                  Sample.with_acme) = Returned r.
Proof.
  repeat (split; [reflexivity|]).
  apply (proj1 (Delete_and_dry_runs_never_panic Int64 keycloak_no_delete Sample.ctx
                  Sample.config "master" Sample.client Sample.with_acme
                  eq_refl eq_refl eq_refl)).
Defined.

Lemma realmExists_by_error_text_witness :
  ctx_config Sample.ctx = Some Sample.config /\
  Realm Sample.config = Some "master" /\
  keycloak Sample.login Sample.no_realms = (Ok Sample.token, Sample.no_realms) /\
  keycloak (GetRealm "token" "acme") Sample.no_realms =
    (Err (APIError "404"), Sample.no_realms) /\
  run keycloak (realmExists Sample.ctx Sample.client "acme") Sample.no_realms =
    (Returned (false, None), [Sample.login; GetRealm "token" "acme"], Sample.no_realms).
Proof.
  repeat (split; [reflexivity|]).
  apply (realmExists_by_error_text keycloak Sample.ctx Sample.config "master"
           Sample.client "acme" Sample.token (Err (APIError "404"))
           Sample.no_realms Sample.no_realms Sample.no_realms);
    reflexivity.
Defined.

Lemma login_failure_stops_operation_witness :
  ctx_config Sample.ctx = Some Sample.config /\
  Realm Sample.config = Some "master" /\
  ctx_client Sample.ctx = Some Sample.client /\
  keycloak_login_refused Sample.login Sample.with_acme =
    (Err (APIError "401"), Sample.with_acme) /\
  run keycloak_login_refused (Delete Sample.ctx {| delete_State := Sample.acme_state |})
    Sample.with_acme =
    (Returned (Err (Errorf "failed to authenticate: " (APIError "401"))),
     [Sample.login], Sample.with_acme) /\
  run keycloak_login_refused (Read Int64 Sample.ctx Cases.read_acme) Sample.with_acme =
    (Returned (Err (Errorf "failed to authenticate: " (APIError "401"))),
     [Sample.login], Sample.with_acme).
Proof.
  do 4 (split; [reflexivity|]).
  destruct (login_failure_stops_operation Int64 keycloak_login_refused Sample.ctx
              Sample.config "master" Sample.client (APIError "401")
              Sample.with_acme Sample.with_acme eq_refl eq_refl eq_refl eq_refl)
    as (_ & _ & Hdelete & Hread).
  split; [apply Hdelete|apply Hread].
Defined.

Lemma dry_runs_log_in_only_witness :
  ctx_config Sample.ctx = Some Sample.config /\
  Realm Sample.config = Some "master" /\
  ctx_client Sample.ctx = Some Sample.client /\
  keycloak Sample.login Sample.with_acme = (Ok Sample.token, Sample.with_acme) /\
  calls_of (run keycloak
              (Update Int64 Sample.ctx
                 {| update_Inputs := Sample.theme_only; update_DryRun := true |})
              Sample.with_acme) = [Sample.login] /\
  calls_of (run keycloak
              (OneStep.Create Int64 Sample.config
                 {| create_Inputs := Sample.theme_only; create_DryRun := true |})
              Sample.with_acme) = [Sample.login].
Proof.
  do 4 (split; [reflexivity|]).
  destruct (dry_runs_log_in_only Int64 keycloak Sample.ctx Sample.theme_only
              Sample.config "master" Sample.client Sample.token
              Sample.with_acme Sample.with_acme eq_refl eq_refl eq_refl eq_refl)
    as [Hupdate Hcreate].
  split; [by rewrite Hupdate|by rewrite Hcreate].
Defined.

Lemma Update_reads_after_write_witness :
  keycloak (GetRealm "token" "acme") Sample.with_acme = (Ok Sample.acme, Sample.with_acme) /\
  keycloak (UpdateRealm "token" (updateRealm Sample.theme_only Sample.acme))
    Sample.with_acme = (None, {["acme" := Cases.acme_themed]}) /\
  run keycloak
    (Update Int64 Sample.ctx
       {| update_Inputs := Sample.theme_only; update_DryRun := false |})
    Sample.with_acme =
    (Returned (Ok {| update_Output := Cases.acme_themed_state |}),
     [Sample.login; GetRealm "token" "acme";
      UpdateRealm "token" (updateRealm Sample.theme_only Sample.acme);
      GetRealm "token" "acme"],
     {["acme" := Cases.acme_themed]}).
Proof.
  split; [reflexivity|]. split; [reflexivity|].
  apply (Update_reads_after_write Int64 keycloak Sample.ctx Sample.theme_only
           Sample.config "master" Sample.client Sample.token "acme"
           Sample.acme Cases.acme_themed
           Sample.with_acme Sample.with_acme Sample.with_acme
           {["acme" := Cases.acme_themed]} {["acme" := Cases.acme_themed]});
    reflexivity.
Defined.

Lemma Read_absent_realm_witness :
  run keycloak (realmExists Sample.ctx Sample.client "acme") Sample.no_realms =
    (Returned (false, None), [Sample.login; GetRealm "token" "acme"], Sample.no_realms) /\
  run keycloak (Read Int64 Sample.ctx Cases.read_acme) Sample.no_realms =
    (Returned (Ok ReadResponse_zero),
     [Sample.login; Sample.login; GetRealm "token" "acme"], Sample.no_realms).
Proof.
  split; [reflexivity|].
  apply (Read_absent_realm Int64 keycloak Sample.ctx Cases.read_acme
           Sample.config "master" Sample.client Sample.token
           [Sample.login; GetRealm "token" "acme"]
           Sample.no_realms Sample.no_realms Sample.no_realms);
    reflexivity.
Defined.

Lemma Read_present_realm_witness :
  run keycloak (realmExists Sample.ctx Sample.client "acme") Sample.with_acme =
    (Returned (true, None), [Sample.login; GetRealm "token" "acme"], Sample.with_acme) /\
  run keycloak (Read Int64 Sample.ctx Cases.read_acme) Sample.with_acme =
    (Returned (Ok {| response_ID := "acme"; response_Inputs := Sample.theme_only;
                     response_State := Sample.acme_state |}),
     [Sample.login; Sample.login; GetRealm "token" "acme"; GetRealm "token" "acme"],
     Sample.with_acme).
Proof.
  split; [reflexivity|].
  apply (Read_present_realm Int64 keycloak Sample.ctx Cases.read_acme
           Sample.config "master" Sample.client Sample.token Sample.acme_state
           [Sample.login; GetRealm "token" "acme"] [GetRealm "token" "acme"]
           Sample.with_acme Sample.with_acme Sample.with_acme Sample.with_acme);
    reflexivity.
Defined.

Lemma Configure_rejects_missing_field_witness :
  (URL Cases.no_url = "" \/ Username Cases.no_url = "" \/ Password Cases.no_url = "") /\
  exists msg,
    run (V := string) keycloak (Configure Cases.provider Cases.no_url) Sample.with_acme =
      (Returned (Cases.provider, Some (errorString msg)), [], Sample.with_acme).
Proof.
  split; [left; reflexivity|].
  apply (Configure_rejects_missing_field keycloak Cases.provider Cases.no_url
           Sample.with_acme).
  left. reflexivity.
Defined.

Lemma Configure_logs_in_with_defaults_witness :
  URL Cases.bare_config <> "" /\ Username Cases.bare_config <> "" /\
  Password Cases.bare_config <> "" /\
  run (V := string) keycloak (Configure Cases.provider Cases.bare_config) Sample.no_realms =
    (Returned ({| kp_config := Some Sample.config; kp_client := Some Sample.client;
                  kp_token := Some Sample.token |}, None),
     [Sample.login], Sample.no_realms) /\
  run (V := string) keycloak_login_refused (Configure Cases.provider Cases.bare_config)
    Sample.no_realms =
    (Returned ({| kp_config := Some Sample.config; kp_client := None; kp_token := None |},
               Some (Errorf "failed to authenticate with Keycloak: " (APIError "401"))),
     [Sample.login], Sample.no_realms).
Proof.
  split; [discriminate|]. split; [discriminate|]. split; [discriminate|]. split.
  - apply (Configure_logs_in_with_defaults keycloak Cases.provider Cases.bare_config
             (Ok Sample.token) Sample.no_realms Sample.no_realms);
      (discriminate || reflexivity).
  - apply (Configure_logs_in_with_defaults keycloak_login_refused Cases.provider
             Cases.bare_config (Err (APIError "401")) Sample.no_realms Sample.no_realms);
      (discriminate || reflexivity).
Defined.
